(** * Moondream real-time detector: label placement and frame pipeline

    A shallow embedding of
      - [utils/drawing.py]        ([_overlap], [_draw_wrapped_text],
                                   [draw_bounding_boxes]),
      - [core/detector.py]        ([Detector.detect_objects],
                                   [Detector.caption_image]),
      - [core/video_processor.py] ([VideoProcessor._process_frame],
                                   [_calculate_fps], [run]),
      - the banners of [utils/drawing.py] and the prompt listener of
        [main.py],
    and the properties of the design document that concern them.

    Conventions.
      - A Python [str] is a list of Unicode code points ([N]).
      - Pixel coordinates are Python [int]s: [Z].
      - Python [float]s (normalised box coordinates, clock readings, the FPS
        value) are kept abstract behind the interface [FloatOps]; the
        rationals give an executable instance.  The floats are finite
        numbers: [int()] raises on a NaN or an infinity, and [to_int] is
        total.
      - [cv2.getTextSize], the vision model and Pillow's [crop] are
        external: they are parameters of the sections that use them; the
        model and [crop] may raise. *)

From Stdlib Require Import String Ascii.
From Stdlib Require Import ZArith NArith QArith List Bool Lia.
Import ListNotations.

Set Implicit Arguments.

Local Open Scope Z_scope.

(* ================================================================== *)
(** * Python strings *)
(* ================================================================== *)

Definition char := N.
Definition str := list char.

(** Code points of an ASCII literal, to write examples. *)
Fixpoint py (s : string) : str :=
  match s with
  | EmptyString => []
  | String a s' => N_of_ascii a :: py s'
  end.

Definition SPACE : char := 32%N.
Definition TAB : char := 9%N.

(** [str.isspace] on one code point: the characters [str.strip()] removes. *)
Definition is_space (c : char) : bool :=
  ((9 <=? c) && (c <=? 13) || (28 <=? c) && (c <=? 32)
   || (c =? 133) || (c =? 160) || (c =? 5760)
   || (8192 <=? c) && (c <=? 8202)
   || (c =? 8232) || (c =? 8233) || (c =? 8239) || (c =? 8287)
   || (c =? 12288))%N.

(** Truthiness of a string: [if current_line]. *)
Definition truthy (s : str) : bool :=
  match s with [] => false | _ :: _ => true end.

Fixpoint lstrip (s : str) : str :=
  match s with
  | [] => []
  | c :: s' => if is_space c then lstrip s' else s
  end.

Definition rstrip (s : str) : str := rev (lstrip (rev s)).

(** [s.strip()] *)
Definition strip (s : str) : str := rstrip (lstrip s).

(** [s.split(sep)] for a one-character separator class: every separator ends
    a piece, empty pieces are kept, the result is never empty. *)
Fixpoint split_on (sep : char -> bool) (s : str) : list str :=
  match s with
  | [] => [[]]
  | c :: s' =>
      if sep c then [] :: split_on sep s'
      else match split_on sep s' with
           | [] => [[c]]
           | w :: ws => (c :: w) :: ws
           end
  end.

(** [text.split(" ")] *)
Definition split_space (text : str) : list str :=
  split_on (N.eqb SPACE) text.

(** [" ".join(ws)] *)
Fixpoint join_space (ws : list str) : str :=
  match ws with
  | [] => []
  | [w] => w
  | w :: ws' => w ++ SPACE :: join_space ws'
  end.

(** The non-empty pieces of [text.split(" ")]: the words the wrapping loop
    really packs. *)
Definition words (text : str) : list str :=
  filter truthy (split_space text).

(** The words of a text in the design document's sense, split on runs of
    whitespace (Python's [text.split()]), and the whitespace-normalised text
    built from them. *)
Definition split_whitespace (text : str) : list str :=
  filter truthy (split_on is_space text).

Definition normalize_ws (text : str) : str :=
  join_space (split_whitespace text).

(** A word without any whitespace character. *)
Definition clean (w : str) : Prop := forall c, In c w -> is_space c = false.

(** A text whose only whitespace characters are plain spaces. *)
Definition only_space_ws (text : str) : Prop :=
  forall c, In c text -> is_space c = true -> c = SPACE.

(** Strings that begin, or end, with a character that is no whitespace. *)
Definition starts_nonspace (s : str) : Prop :=
  exists c s', s = c :: s' /\ is_space c = false.

Definition ends_nonspace (s : str) : Prop :=
  exists s' c, s = s' ++ [c] /\ is_space c = false.

(** The words a line can be made of: not empty, no whitespace inside. *)
Definition proper_word (w : str) : Prop := w <> [] /\ clean w.

(** [only_space_ws], decided. *)
Definition only_space_wsb (text : str) : bool :=
  forallb (fun c => negb (is_space c) || (c =? SPACE)%N) text.

(* ================================================================== *)
(** * Rectangles and the overlap test *)
(* ================================================================== *)

Module Rect.
Record t : Type := mk { x_min : Z; y_min : Z; x_max : Z; y_max : Z }.
End Rect.

(** [_overlap(rect1, rect2)] *)
Definition _overlap (rect1 rect2 : Rect.t) : bool :=
  negb ((Rect.x_max rect1 <? Rect.x_min rect2)
        || (Rect.x_max rect2 <? Rect.x_min rect1)
        || (Rect.y_max rect1 <? Rect.y_min rect2)
        || (Rect.y_max rect2 <? Rect.y_min rect1)).

(** A rectangle proper: its minimum corner is not beyond its maximum one. *)
Definition is_rectangle (r : Rect.t) : Prop :=
  Rect.x_min r <= Rect.x_max r /\ Rect.y_min r <= Rect.y_max r.

(* ================================================================== *)
(** * Settings and floats *)
(* ================================================================== *)

(** The constants of [config/settings.py] the modelled code reads. *)
Record Settings : Type := {
  FRAME_SKIP : Z;
  FPS_POLL_RATE : Z;
  MAX_OBJECTS : Z;
  TEXT_LINE_SPACING : Z
}.

Definition settings : Settings :=
  {| FRAME_SKIP := 5; FPS_POLL_RATE := 10; MAX_OBJECTS := 1;
     TEXT_LINE_SPACING := 5 |}.

(** The float operations the code performs. *)
Class FloatOps (F : Type) : Type := {
  of_int : Z -> F;          (* the implicit int -> float conversion *)
  fmul : F -> F -> F;       (* a * b *)
  fsub : F -> F -> F;       (* a - b *)
  fdiv : F -> F -> F;       (* a / b *)
  fgt : F -> F -> bool;     (* a > b *)
  to_int : F -> Z           (* int(a): truncation toward zero *)
}.

#[export] Instance Q_FloatOps : FloatOps Q := {
  of_int := inject_Z;
  fmul := Qmult;
  fsub := Qminus;
  fdiv := Qdiv;
  fgt := fun a b => negb (Qle_bool a b);
  to_int := fun a => Z.quot (Qnum a) (Zpos (Qden a))
}.

(** A detection: the dict the model returns, [label] being the key that
    [_process_frame] adds. *)
Module Obj.
Record t (F : Type) : Type :=
  mk { x_min : F; y_min : F; x_max : F; y_max : F; label : option str }.
Arguments mk {F}.
Arguments x_min {F}.
Arguments y_min {F}.
Arguments x_max {F}.
Arguments y_max {F}.
Arguments label {F}.
(** [obj["label"] = l] *)
Definition set_label {F} (obj : t F) (l : str) : t F :=
  mk (x_min obj) (y_min obj) (x_max obj) (y_max obj) (Some l).
End Obj.

(* ================================================================== *)
(** * Label placement: [_draw_wrapped_text] *)
(* ================================================================== *)

(** What one call of [_draw_wrapped_text] computes and draws. *)
Record DrawPlan : Type := {
  dp_lines : list str;
  dp_line_width : Z;
  dp_line_height : Z;
  dp_total_text_height : Z;
  dp_label_x : Z;
  dp_label_y_start : Z;
  dp_text_area : option Rect.t;          (* the footprint appended, if any *)
  dp_used_areas : option (list Rect.t);  (* [used_areas] after the call *)
  dp_background : Rect.t;                (* the filled rectangle *)
  dp_text_at : list (str * (Z * Z))      (* each line and its origin *)
}.

Fixpoint enumerate_from {A : Type} (i : Z) (l : list A) : list (Z * A) :=
  match l with
  | [] => []
  | a :: l' => (i, a) :: enumerate_from (i + 1) l'
  end.

(** The margin-expanded area of a label at [(label_x, label_y_start)]. *)
Definition text_area_at (label_x label_y_start line_width total_text_height : Z)
  : Rect.t :=
  {| Rect.x_min := label_x - 15;
     Rect.y_min := label_y_start - 5;
     Rect.x_max := label_x + line_width + 15;
     Rect.y_max := label_y_start + total_text_height + 5 |}.

(** The loop [for area in used_areas: if _overlap(text_area, area): ...]. *)
Definition overlap_found_in (text_area : Rect.t) (used_areas : list Rect.t)
  : bool :=
  existsb (_overlap text_area) used_areas.

(** The horizontal rule: start at the anchor's left edge, shifted left when
    the first line would pass the right edge of the canvas (lines 102-105). *)
Definition horizontal_rule (x_min line_width frame_width : Z) : Z :=
  if x_min + line_width >? frame_width
  then frame_width - line_width else x_min.

(** The vertical rule of line 108: above the box when there is room, below
    it otherwise. *)
Definition above_has_room (y_min total_text_height : Z) : bool :=
  y_min - 10 - total_text_height >? 0.

Definition vertical_rule (y_min line_height total_text_height : Z) : Z :=
  if above_has_room y_min total_text_height
  then y_min - 10 else y_min + 10 + line_height.

(** The design document's reading of the footprint: the text rectangle
    grown by one margin on all four sides. *)
Definition expanded_all_sides
    (margin label_x label_y_start line_width total_text_height : Z) : Rect.t :=
  {| Rect.x_min := label_x - margin;
     Rect.y_min := label_y_start - margin;
     Rect.x_max := label_x + line_width + margin;
     Rect.y_max := label_y_start + total_text_height + margin |}.

(** A rectangle inside a canvas of the given size, no coordinate negative. *)
Definition within_canvas (canvas_width canvas_height : Z) (r : Rect.t) : Prop :=
  (0 <= Rect.x_min r <= canvas_width) /\ (0 <= Rect.x_max r <= canvas_width) /\
  (0 <= Rect.y_min r <= canvas_height) /\ (0 <= Rect.y_max r <= canvas_height).

Section Drawing.

Variable cfg : Settings.

(** [(w, h)] of [cv2.getTextSize(text, font, font_scale, thickness)]. *)
Variable getTextSize : str -> Z * Z.

(** [wrap_width = max(300, x_max - x_min)] *)
Definition wrap_width_of (x_min x_max : Z) : Z := Z.max 300 (x_max - x_min).

(** One turn of [for word in words]. *)
Definition wrap_step (wrap_width : Z) (acc : list str * str) (word : str)
  : list str * str :=
  let '(lines, current_line) := acc in
  let test_line := strip (current_line ++ SPACE :: word) in
  let '(text_width, _) := getTextSize test_line in
  if (text_width >? wrap_width) && truthy current_line
  then (lines ++ [current_line], word)
  else (lines, test_line).

(** Lines 72-88: the wrapped lines of [text]. *)
Definition wrap_lines (wrap_width : Z) (text : str) : list str :=
  let '(lines, current_line) :=
    fold_left (wrap_step wrap_width) (split_space text) ([], []) in
  if truthy current_line then lines ++ [current_line] else lines.

(** The same loop read on words instead of characters: which words go to
    which line, [current] being the words of the line under construction.
    An empty piece of [text.split(" ")] adds nothing to a line but, like
    any other, closes a line that is already too wide. *)
Fixpoint pack_words (wrap_width : Z) (current : list str) (ws : list str)
  : list (list str) :=
  match ws with
  | [] => match current with [] => [] | _ :: _ => [current] end
  | w :: ws' =>
      let test := if truthy w then current ++ [w] else current in
      if (fst (getTextSize (join_space test)) >? wrap_width)
         && match current with [] => false | _ :: _ => true end
      then current :: pack_words wrap_width (if truthy w then [w] else []) ws'
      else pack_words wrap_width test ws'
  end.

(** A text measure that never shrinks when characters are added around a
    string, as one that adds up glyph widths. *)
Definition metric_monotone : Prop :=
  forall a b c : str,
    fst (getTextSize b) <= fst (getTextSize (a ++ b ++ c)).

(** Lines 119-143: the collision steps, from the first candidate
    position to the accepted one. *)
Definition avoid_overlap
    (y_min x_max frame_width line_width line_height total_text_height : Z)
    (label_x label_y_start : Z) (used_areas : list Rect.t)
  : Z * Z * Rect.t :=
  let text_area :=
    text_area_at label_x label_y_start line_width total_text_height in
  let overlap_found := overlap_found_in text_area used_areas in
  let '(label_y_start, text_area, overlap_found) :=
    if overlap_found && (label_y_start >? y_min) then
      let label_y_start := y_min + 10 + line_height in
      let text_area :=
        {| Rect.x_min := Rect.x_min text_area;
           Rect.y_min := label_y_start - 5;
           Rect.x_max := Rect.x_max text_area;
           Rect.y_max := label_y_start + total_text_height + 5 |} in
      (label_y_start, text_area, overlap_found_in text_area used_areas)
    else (label_y_start, text_area, overlap_found) in
  if overlap_found then
    let label_x := Z.min (frame_width - line_width - 15) (x_max + 10) in
    (label_x, label_y_start,
     {| Rect.x_min := label_x - 15;
        Rect.y_min := Rect.y_min text_area;
        Rect.x_max := label_x + line_width + 15;
        Rect.y_max := Rect.y_max text_area |})
  else (label_x, label_y_start, text_area).

(** [_draw_wrapped_text(frame, text, x_min, y_min, x_max, frame_width,
    used_areas, frame_height)].  [frame_shape] is [frame.shape[:2]],
    that is (height, width); the argument [frame_height] is overwritten
    by it on entry (line 69) and so is not a parameter here.
    [settings.LABEL_BG_COLOR] is not [None]: the background is always
    drawn.  The result is [None] when the function returns before
    drawing. *)
Definition _draw_wrapped_text
    (frame_shape : Z * Z) (text : str) (x_min y_min x_max frame_width : Z)
    (used_areas : option (list Rect.t)) : option DrawPlan :=
  let line_spacing := TEXT_LINE_SPACING cfg in
  let '(frame_height, frame_width_actual) := frame_shape in
  let wrap_width := wrap_width_of x_min x_max in
  let lines := wrap_lines wrap_width text in
  match lines with
  | [] => None
  | first_line :: _ =>
      let '(line_width, line_height) := getTextSize first_line in
      let total_text_height :=
        Z.of_nat (length lines) * (line_height + line_spacing) in
      let label_x := horizontal_rule x_min line_width frame_width in
      let label_y_start := vertical_rule y_min line_height total_text_height in
      let '(label_x, label_y_start, text_area, used_areas) :=
        match used_areas with
        | Some areas =>
            let '(lx, ly, area) :=
              avoid_overlap y_min x_max frame_width line_width line_height
                            total_text_height label_x label_y_start areas in
            (lx, ly, Some area, Some (areas ++ [area]))
        | None => (label_x, label_y_start, None, None)
        end in
      let max_width :=
        fold_left (fun m line => Z.max m (fst (getTextSize line))) lines 0 in
      let padding := 15 in
      let '(bg_y_start, bg_y_end) :=
        if label_y_start >? y_min
        then (Z.max 0 (y_min + 5),
              Z.min frame_height (y_min + total_text_height + padding))
        else (Z.max 0 (y_min - total_text_height - padding),
              Z.min frame_height (y_min - 5)) in
      let bg_x_start := Z.max 0 (label_x - padding) in
      let bg_x_end := Z.min frame_width (label_x + max_width + padding) in
      let text_at :=
        map (fun '(i, line) =>
               let y_pos :=
                 if label_y_start >? y_min
                 then y_min + i * (line_height + line_spacing)
                      + line_height + 10
                 else y_min - total_text_height
                      + i * (line_height + line_spacing) + line_height in
               let y_pos :=
                 Z.max (line_height + 5) (Z.min y_pos (frame_height - 5)) in
               (line, (label_x, y_pos)))
            (enumerate_from 0 lines) in
      Some {| dp_lines := lines;
              dp_line_width := line_width;
              dp_line_height := line_height;
              dp_total_text_height := total_text_height;
              dp_label_x := label_x;
              dp_label_y_start := label_y_start;
              dp_text_area := text_area;
              dp_used_areas := used_areas;
              dp_background :=
                {| Rect.x_min := bg_x_start; Rect.y_min := bg_y_start;
                   Rect.x_max := bg_x_end; Rect.y_max := bg_y_end |};
              dp_text_at := text_at |}
  end.

(** [draw_bounding_boxes(frame, objects)]: the pixel box drawn for each
    object, what [_draw_wrapped_text] did for its label, and the
    footprints accumulated in [used_areas]. *)
Definition draw_bounding_boxes {F} `{FloatOps F}
    (frame_shape : Z * Z) (objects : list (Obj.t F))
  : list (Rect.t * option DrawPlan) * list Rect.t :=
  let '(height, width) := frame_shape in
  fold_left
    (fun '(drawn, used_areas) obj =>
       let x_min := to_int (fmul (Obj.x_min obj) (of_int width)) in
       let y_min := to_int (fmul (Obj.y_min obj) (of_int height)) in
       let x_max := to_int (fmul (Obj.x_max obj) (of_int width)) in
       let y_max := to_int (fmul (Obj.y_max obj) (of_int height)) in
       let label := match Obj.label obj with Some l => l | None => [] end in
       let box := Rect.mk x_min y_min x_max y_max in
       match _draw_wrapped_text frame_shape label x_min y_min x_max width
                                (Some used_areas) with
       | Some plan =>
           (drawn ++ [(box, Some plan)],
            match dp_used_areas plan with
            | Some areas => areas
            | None => used_areas
            end)
       | None => (drawn ++ [(box, None)], used_areas)
       end)
    objects ([], []).

End Drawing.

(** A stand-in font for examples: every glyph 12 pixels wide, every line 16
    pixels high. *)
Definition fixed_pitch (s : str) : Z * Z := (12 * Z.of_nat (length s), 16).

Definition frame_720p : Z * Z := (720, 1280).

(* ================================================================== *)
(** * Calls into the model: results, exceptions and the call trace *)
(* ================================================================== *)

(** What a Python call can raise.  [except Exception] catches the first
    kind only; [KeyboardInterrupt], [SystemExit] and the like derive from
    [BaseException] alone. *)
Inductive raised : Type :=
| PyException (msg : str)
| PyBaseException (msg : str).

Inductive outcome (A : Type) : Type :=
| Returns (a : A)
| Raises (e : raised).
Arguments Returns {A}.
Arguments Raises {A}.

(** The computations of the pipeline: a result or a propagating exception,
    together with the calls made into the model, in order. *)
Definition M (E A : Type) : Type := outcome A * list E.

Definition ret {E A} (a : A) : M E A := (Returns a, []).

Definition bind {E A B} (m : M E A) (f : A -> M E B) : M E B :=
  match m with
  | (Returns a, t) => let '(r, t') := f a in (r, t ++ t')
  | (Raises e, t) => (Raises e, t)
  end.

(** [try: body  except Exception as e: handler] *)
Definition try_except {E A} (body : M E A) (handler : str -> M E A) : M E A :=
  match body with
  | (Raises (PyException msg), t) => let '(r, t') := handler msg in (r, t ++ t')
  | _ => body
  end.

Notation "x <- m ;; k" := (bind m (fun x => k))
  (at level 61, m at next level, right associativity).

(** [for x in xs: ys.append(f(x))] *)
Fixpoint for_each {E A B} (f : A -> M E B) (xs : list A) : M E (list B) :=
  match xs with
  | [] => ret []
  | x :: xs' => y <- f x ;; ys <- for_each f xs' ;; ret (y :: ys)
  end.

(* ================================================================== *)
(** * [Detector] and [VideoProcessor] *)
(* ================================================================== *)

(** The fields of a [VideoProcessor] that [_process_frame] reads or
    writes. *)
Record VideoProcessor (F : Type) : Type := {
  mode : string;
  frame_count : Z;
  fps : F;
  start_time : F;
  latest_objects : list (Obj.t F)
}.
Arguments mode {F}.
Arguments frame_count {F}.
Arguments fps {F}.
Arguments start_time {F}.
Arguments latest_objects {F}.

(** A box [(left, upper, right, lower)] with its corners in order. *)
Definition box_in_order (box : Z * Z * Z * Z) : Prop :=
  let '(x_min, y_min, x_max, y_max) := box in
  x_min <= x_max /\ y_min <= y_max.

Section Pipeline.

Variable cfg : Settings.
Variable getTextSize : str -> Z * Z.

Variable F : Type.
Context `{FloatOps F}.

(** Frames ([numpy] arrays) and [PIL] images. *)
Variable Frame : Type.
Variable Image : Type.
Variable shape : Frame -> Z * Z.          (* frame.shape[:2] = (height, width) *)
Variable fromarray : Frame -> Image.      (* Image.fromarray(cv2.cvtColor(frame, ...)) *)
Variable size : Image -> Z * Z.           (* image.size = (width, height) *)

(** [image.crop((left, upper, right, lower))], which is called outside
    every [try]: Pillow raises [ValueError] on a box it refuses. *)
Variable crop : Image -> Z * Z * Z * Z -> outcome Image.

(** The model: [model.detect(image, prompt, settings={"max_objects": n})]
    returns a dict that may hold the key ["objects"];
    [model.caption(image, length="short")] a dict that may hold
    ["caption"]; either may raise. *)
Variable model_detect :
  Image -> str -> Z -> outcome (option (list (Obj.t F))).
Variable model_caption : Image -> outcome (option str).

Inductive event : Type :=
| Detect (image : Image) (prompt : str) (max_objects : Z)
| Caption (image : Image).

Definition is_Detect (e : event) : bool :=
  match e with Detect _ _ _ => true | Caption _ => false end.

(** [Detector.detect_objects(image, prompt)] *)
Definition detect_objects (image : Image) (prompt : str)
  : M event (list (Obj.t F)) :=
  try_except
    (result <- (model_detect image prompt (MAX_OBJECTS cfg),
                [Detect image prompt (MAX_OBJECTS cfg)]) ;;
     ret (match result with Some objects => objects | None => [] end))
    (fun _ => ret []).

(** [Detector.caption_image(image)] *)
Definition caption_image (image : Image) : M event str :=
  try_except
    (result <- (model_caption image, [Caption image]) ;;
     ret (match result with Some caption => caption | None => [] end))
    (fun _ => ret []).

(** The pixel box of a detection on a frame: [int(obj["x_min"] * width)]
    and so on. *)
Definition pixel_box (frame : Frame) (obj : Obj.t F) : Z * Z * Z * Z :=
  let '(height, width) := shape frame in
  (to_int (fmul (Obj.x_min obj) (of_int width)),
   to_int (fmul (Obj.y_min obj) (of_int height)),
   to_int (fmul (Obj.x_max obj) (of_int width)),
   to_int (fmul (Obj.y_max obj) (of_int height))).

(** [cropped_image.size[0] > 0 and cropped_image.size[1] > 0] *)
Definition positive_size (image_size : Z * Z) : bool :=
  (fst image_size >? 0) && (snd image_size >? 0).

(** The body of [for obj in detected_objects] (lines 100-117).  An
    exception of [crop] leaves the loop, and [_process_frame], at once. *)
Definition label_object (self_mode : string) (frame : Frame)
    (pil_image : Image) (current_prompt : str) (obj : Obj.t F)
  : M event (Obj.t F) :=
  label <-
    (if String.eqb self_mode "caption" then
       cropped_image <- (crop pil_image (pixel_box frame obj), []) ;;
       if positive_size (size cropped_image)
       then caption_image cropped_image
       else ret current_prompt
     else ret current_prompt) ;;
  ret (Obj.set_label obj label).

(** [VideoProcessor._calculate_fps()]; [now] is what [time.time()]
    returns if it is called. *)
Definition _calculate_fps (self : VideoProcessor F) (now : F)
  : VideoProcessor F :=
  let frame_count' := frame_count self + 1 in
  if frame_count' >=? FPS_POLL_RATE cfg then
    let end_time := now in
    let elapsed_time := fsub end_time (start_time self) in
    {| mode := mode self;
       frame_count := 0;
       fps := if fgt elapsed_time (of_int 0)
              then fdiv (of_int frame_count') elapsed_time
              else fps self;
       start_time := end_time;
       latest_objects := latest_objects self |}
  else
    {| mode := mode self;
       frame_count := frame_count';
       fps := fps self;
       start_time := start_time self;
       latest_objects := latest_objects self |}.

(** What is read from the outside while one frame is processed. *)
Record FrameInput : Type := {
  fi_frame : Frame;        (* the frame [cap.read()] returned *)
  fi_prompt : str;         (* [shared_state.prompt] at line 90 *)
  fi_prompt_drawn : str;   (* [shared_state.prompt] at line 130 *)
  fi_time : F;             (* [time.time()] in [_calculate_fps] *)
  fi_key : Z               (* [cv2.waitKey(frame_delay)] *)
}.

(** The boxes [crop] accepts: Pillow raises [ValueError] when the right
    edge of the box is less than the left, or the lower less than the
    upper, and crops otherwise. *)
Definition crop_accepts_ordered_boxes : Prop :=
  forall image box,
    box_in_order box ->
    exists cropped_image, crop image box = Returns cropped_image.

(** The detections the model returns on a frame have their corners in
    order, once in pixels. *)
Definition detections_in_order (inp : FrameInput) : Prop :=
  forall objects,
    model_detect (fromarray (fi_frame inp)) (fi_prompt inp) (MAX_OBJECTS cfg)
    = Returns (Some objects) ->
    Forall (fun obj => box_in_order (pixel_box (fi_frame inp) obj)) objects.

(** What [_process_frame] hands to the drawing functions. *)
Record Rendered : Type := {
  r_objects : list (Obj.t F);   (* argument of [draw_bounding_boxes] *)
  r_labels : list (Rect.t * option DrawPlan) * list Rect.t;
  r_fps : F;                    (* the value in [info_text] *)
  r_prompt : str                (* argument of [draw_prompt_text] *)
}.

(** The gate of line 88.  [FRAME_SKIP] is a positive number in every
    statement about whole runs: [%] raises [ZeroDivisionError] at 0. *)
Definition runs_inference (self : VideoProcessor F) : bool :=
  frame_count self mod FRAME_SKIP cfg =? 0.

(** [VideoProcessor._process_frame(frame)] *)
Definition _process_frame (self : VideoProcessor F) (inp : FrameInput)
  : M event (VideoProcessor F * Rendered) :=
  let frame := fi_frame inp in
  latest <-
    (if runs_inference self then
       let current_prompt := fi_prompt inp in
       let pil_image := fromarray frame in
       detected_objects <- detect_objects pil_image current_prompt ;;
       for_each (label_object (mode self) frame pil_image current_prompt)
                detected_objects
     else ret (latest_objects self)) ;;
  let self1 :=
    {| mode := mode self; frame_count := frame_count self; fps := fps self;
       start_time := start_time self; latest_objects := latest |} in
  let labels := draw_bounding_boxes cfg getTextSize (shape frame) latest in
  let self2 := _calculate_fps self1 (fi_time inp) in
  ret (self2,
       {| r_objects := latest; r_labels := labels; r_fps := fps self2;
          r_prompt := fi_prompt_drawn inp |}).

(** One turn of the loop of [run], as seen from outside: the calls made
    into the model and what was drawn. *)
Record Report : Type := {
  rp_calls : list event;
  rp_rendered : Rendered
}.

(** The list rendered on the frame before frame [i] of a run, which on the
    first frame is the one the processor held on entry. *)
Definition rendered_before
    (self : VideoProcessor F) (reports : list Report) (i : nat)
  : option (list (Obj.t F)) :=
  match i with
  | O => Some (latest_objects self)
  | S j => option_map (fun r => r_objects (rp_rendered r)) (nth_error reports j)
  end.

Inductive ending : Type :=
| EndOfStream                              (* [cap.read()] gave no frame *)
| Quit                                     (* the key [q] *)
| Crashed (e : raised) (calls : list event).

(** [VideoProcessor.run()] on the frames the source yields. *)
Fixpoint run (self : VideoProcessor F) (source : list FrameInput)
  : list Report * ending :=
  match source with
  | [] => ([], EndOfStream)
  | inp :: source' =>
      match _process_frame self inp with
      | (Raises e, calls) => ([], Crashed e calls)
      | (Returns (self', rendered), calls) =>
          let report := {| rp_calls := calls; rp_rendered := rendered |} in
          if Z.land (fi_key inp) 255 =? 113 (* ord("q") *)
          then ([report], Quit)
          else let '(reports, e) := run self' source' in
               (report :: reports, e)
      end
  end.

(** The fields [__init__] sets (lines 61-64). *)
Definition VideoProcessor_init (mode : string) (now : F) : VideoProcessor F :=
  {| mode := mode; frame_count := 0; fps := of_int 0; start_time := now;
     latest_objects := [] |}.

End Pipeline.

Arguments is_Detect {Image} e.
Arguments _calculate_fps cfg {F H} self now.
Arguments VideoProcessor_init {F H} mode now.

(* ================================================================== *)
(** * Data for examples *)
(* ================================================================== *)

(** Stand-ins for frames and images: only their dimensions. *)
Definition dims_shape (frame : Z * Z) : Z * Z := frame.

Definition dims_fromarray (frame : Z * Z) : Z * Z := (snd frame, fst frame).

Definition dims_size (image : Z * Z) : Z * Z := image.

(** Pillow's [Image.crop], on dimensions. *)
Definition dims_crop (image : Z * Z) (box : Z * Z * Z * Z)
  : outcome (Z * Z) :=
  let '(x0, y0, x1, y1) := box in
  if x1 <? x0
  then Raises (PyException (py "Coordinate 'right' is less than 'left'"))
  else if y1 <? y0
  then Raises (PyException (py "Coordinate 'lower' is less than 'upper'"))
  else Returns (x1 - x0, y1 - y0).

(** The detection of the design document's scenario, and one whose box has
    no width. *)
Definition a_person : Obj.t Q :=
  Obj.mk (2 # 10) (3 # 10) (6 # 10) (7 # 10) None.

Definition a_sliver : Obj.t Q :=
  Obj.mk (1 # 2) (3 # 10) (1 # 2) (7 # 10) None.

(** Models for examples: one that answers, one that fails. *)
Definition model_finds (objects : list (Obj.t Q))
    (_ : Z * Z) (_ : str) (_ : Z) : outcome (option (list (Obj.t Q))) :=
  Returns (Some objects).

Definition model_says (caption : str) (_ : Z * Z) : outcome (option str) :=
  Returns (Some caption).

Definition detect_fails (_ : Z * Z) (_ : str) (_ : Z)
  : outcome (option (list (Obj.t Q))) :=
  Raises (PyException (py "CUDA out of memory")).

Definition caption_fails (_ : Z * Z) : outcome (option str) :=
  Raises (PyException (py "CUDA out of memory")).

(** The shipped settings with inference every third frame. *)
Definition settings_skip_3 : Settings :=
  {| FRAME_SKIP := 3; FPS_POLL_RATE := 10; MAX_OBJECTS := 1;
     TEXT_LINE_SPACING := 5 |}.

Definition frame_at (t : Q) : FrameInput Q (Z * Z)%type :=
  {| fi_frame := frame_720p; fi_prompt := py "a person";
     fi_prompt_drawn := py "a person"; fi_time := t; fi_key := 0 |}.

(** [n] frames, read at times [t0 + 1, t0 + 2, ...]. *)
Fixpoint frames_from (t0 : Q) (n : nat) : list (FrameInput Q (Z * Z)%type) :=
  match n with
  | O => []
  | S n' => frame_at (t0 + 1)%Q :: frames_from (t0 + 1)%Q n'
  end.

(** Texts for examples. *)
Definition sample_caption : str :=
  py "a person wearing a blue shirt and a hat".

(** Two twenty-letter words with a tab between them; two words with tabs
    before them. *)
Definition tabbed_words : str := repeat 97%N 20 ++ TAB :: repeat 98%N 20.

Definition tabs_before_words : str := TAB :: py "a " ++ TAB :: py "b".

(* ================================================================== *)
(** * Banners, the prompt listener and the start-up values *)
(* ================================================================== *)

(** The display constants of [config/settings.py] the banners read, and
    the defaults [main] falls back to. *)
Record DisplaySettings : Type := {
  FRAME_WIDTH : Z;
  FRAME_HEIGHT : Z;
  TEXT_PADDING : Z;
  INFO_TEXT_POSITION : Z * Z;
  PROMPT_TEXT_POSITION : Z * Z;
  DEFAULT_OBJECT_PROMPT : str;
  DEFAULT_MODE : string
}.

Definition display_settings : DisplaySettings :=
  {| FRAME_WIDTH := 1280;
     FRAME_HEIGHT := 720;
     TEXT_PADDING := 8;
     INFO_TEXT_POSITION := (10, 720 - 40);
     PROMPT_TEXT_POSITION := (10, 720 - 10);
     DEFAULT_OBJECT_PROMPT := py "what are the objects in the scene";
     DEFAULT_MODE := "detect" |}.

(** What one call of [_draw_text_with_bg] draws. *)
Record Banner : Type := {
  bn_text : str;
  bn_origin : Z * Z;                 (* where [cv2.putText] writes *)
  bn_background : option Rect.t      (* the filled rectangle, if any *)
}.

Section Banners.

Variable dcfg : DisplaySettings.
Variable getTextSize : str -> Z * Z.

(** [_draw_text_with_bg(frame, text, position, font_color, bg_color)];
    [frame_shape] is [frame.shape[:2]], [has_bg] says that [bg_color] is
    not [None]. *)
Definition _draw_text_with_bg
    (frame_shape : Z * Z) (text : str) (position : Z * Z) (has_bg : bool)
  : Banner :=
  let padding := TEXT_PADDING dcfg in
  let '(text_width, text_height) := getTextSize text in
  let '(x, y) := position in
  let '(frame_height, frame_width) := frame_shape in
  let x := Z.max padding (Z.min x (frame_width - text_width - padding)) in
  let y := Z.max (text_height + padding) (Z.min y (frame_height - padding)) in
  {| bn_text := text;
     bn_origin := (x, y);
     bn_background :=
       if has_bg then
         Some {| Rect.x_min := Z.max 0 (x - padding);
                 Rect.y_min := Z.max 0 (y - text_height - padding);
                 Rect.x_max := Z.min frame_width (x + text_width + padding);
                 Rect.y_max := Z.min frame_height (y + padding) |}
       else None |}.

(** [draw_info_text(frame, text)]; [settings.INFO_BG_COLOR] is set. *)
Definition draw_info_text (frame_shape : Z * Z) (text : str) : Banner :=
  _draw_text_with_bg frame_shape text (INFO_TEXT_POSITION dcfg) true.

(** [draw_prompt_text(frame, text)]; [settings.PROMPT_BG_COLOR] is set. *)
Definition draw_prompt_text (frame_shape : Z * Z) (text : str) : Banner :=
  _draw_text_with_bg frame_shape (py "Prompt: " ++ text)
                     (PROMPT_TEXT_POSITION dcfg) true.

End Banners.

(** The footprints a list of drawn labels has recorded, in order. *)
Definition footprints_of (drawn : list (Rect.t * option DrawPlan))
  : list Rect.t :=
  flat_map (fun d => match snd d with
                     | Some plan => match dp_text_area plan with
                                    | Some area => [area]
                                    | None => []
                                    end
                     | None => []
                     end) drawn.

(** The pixel box [draw_bounding_boxes] computes for an object, and the
    label it reads with [obj.get("label", "")]. *)
Definition object_rect {F} `{FloatOps F} (frame_shape : Z * Z) (obj : Obj.t F)
  : Rect.t :=
  let '(height, width) := frame_shape in
  Rect.mk (to_int (fmul (Obj.x_min obj) (of_int width)))
          (to_int (fmul (Obj.y_min obj) (of_int height)))
          (to_int (fmul (Obj.x_max obj) (of_int width)))
          (to_int (fmul (Obj.y_max obj) (of_int height))).

Definition object_label {F} (obj : Obj.t F) : str :=
  match Obj.label obj with Some l => l | None => [] end.

(** The four coordinates of a detection, without its label. *)
Definition object_box {F} (obj : Obj.t F) : F * F * F * F :=
  (Obj.x_min obj, Obj.y_min obj, Obj.x_max obj, Obj.y_max obj).

(** The key test of [run]: [cv2.waitKey(...) & 0xFF == ord("q")]. *)
Definition is_quit_key (key : Z) : bool := Z.land key 255 =? 113.

Section Listener.

(** [str.lower] *)
Variable lower : str -> str.

(** [prompt_input_thread(shared_state)] on the lines [input()] returns,
    the end of the list standing for [EOFError]: the values it writes to
    [shared_state.prompt], in order. *)
Fixpoint prompt_input_thread (inputs : list str) : list str :=
  match inputs with
  | [] => []
  | new_prompt :: inputs' =>
      if list_eq_dec N.eq_dec (lower new_prompt) (py "quit") then []
      else if truthy new_prompt
           then new_prompt :: prompt_input_thread inputs'
           else prompt_input_thread inputs'
  end.

End Listener.

(** [initial_prompt = args.prompt or settings.DEFAULT_OBJECT_PROMPT] and
    [mode = args.mode or settings.DEFAULT_MODE] in [main]. *)
Definition initial_prompt (dcfg : DisplaySettings) (args_prompt : option str)
  : str :=
  match args_prompt with
  | Some p => if truthy p then p else DEFAULT_OBJECT_PROMPT dcfg
  | None => DEFAULT_OBJECT_PROMPT dcfg
  end.

(** The prompt a reader of [shared_state.prompt] sees once the listener
    has made the given writes. *)
Definition current_prompt_after (initial : str) (writes : list str) : str :=
  last writes initial.

(** [str.lower] on ASCII letters, for examples. *)
Definition ascii_lower (s : str) : str :=
  map (fun c => if ((65 <=? c) && (c <=? 90))%N then (c + 32)%N else c) s.

(** A text measure is non-negative, as [cv2.getTextSize] is. *)
Definition metric_nonnegative (getTextSize : str -> Z * Z) : Prop :=
  forall s, 0 <= fst (getTextSize s) /\ 0 <= snd (getTextSize s).

(** More data for examples. *)
Definition detect_interrupted (_ : Z * Z) (_ : str) (_ : Z)
  : outcome (option (list (Obj.t Q))) :=
  Raises (PyBaseException (py "KeyboardInterrupt")).

Definition quit_frame (t : Q) : FrameInput Q (Z * Z)%type :=
  {| fi_frame := frame_720p; fi_prompt := py "a person";
     fi_prompt_drawn := py "a person"; fi_time := t; fi_key := 113 + 256 |}.

Definition settings_skip_30 : Settings :=
  {| FRAME_SKIP := 30; FPS_POLL_RATE := 10; MAX_OBJECTS := 1;
     TEXT_LINE_SPACING := 5 |}.

Definition a_neighbour : Obj.t Q :=
  Obj.set_label (Obj.mk (25 # 100) (3 # 10) (65 # 100) (7 # 10) None)
                (py "a person").

Definition two_people : list (Obj.t Q) :=
  [Obj.set_label a_person (py "a person"); a_neighbour].

(** Detections whose coordinates are exact in binary: one in order, one
    whose right edge is left of its left edge. *)
Definition a_cyclist : Obj.t Q :=
  Obj.mk (1 # 4) (1 # 4) (3 # 4) (3 # 4) None.

Definition a_mirrored_box : Obj.t Q :=
  Obj.mk (3 # 4) (1 # 4) (1 # 4) (3 # 4) None.

(** One whose box has no width. *)
Definition a_pole : Obj.t Q :=
  Obj.mk (1 # 2) (1 # 4) (1 # 2) (3 # 4) None.

Definition stalled_processor : VideoProcessor Q :=
  {| mode := "detect"; frame_count := 10; fps := 0%Q; start_time := 5%Q;
     latest_objects := [] |}.

(** The pixel [(x, y)] lies in the rectangle, edges included. *)
Definition contains (r : Rect.t) (x y : Z) : Prop :=
  Rect.x_min r <= x <= Rect.x_max r /\ Rect.y_min r <= y <= Rect.y_max r.

Unset Implicit Arguments.

(* ================================================================== *)
(** * The overlap test *)
(* ================================================================== *)

Lemma overlap_false_iff (a b : Rect.t) :
  _overlap a b = false <->
  Rect.x_max a < Rect.x_min b \/ Rect.x_max b < Rect.x_min a \/
  Rect.y_max a < Rect.y_min b \/ Rect.y_max b < Rect.y_min a.
Proof.
  unfold _overlap.
  rewrite negb_false_iff, !orb_true_iff, !Z.ltb_lt.
  tauto.
Qed.

Lemma overlap_true_iff (a b : Rect.t) :
  _overlap a b = true <->
  Rect.x_min b <= Rect.x_max a /\ Rect.x_min a <= Rect.x_max b /\
  Rect.y_min b <= Rect.y_max a /\ Rect.y_min a <= Rect.y_max b.
Proof.
  unfold _overlap.
  rewrite negb_true_iff, !orb_false_iff, !Z.ltb_ge.
  tauto.
Qed.

Lemma overlap_sym (a b : Rect.t) : _overlap a b = _overlap b a.
Proof.
  destruct (_overlap b a) eqn:E.
  - apply overlap_true_iff in E. apply overlap_true_iff. tauto.
  - apply overlap_false_iff in E. apply overlap_false_iff. tauto.
Qed.

(** C6.  The overlap test is symmetric; a rectangle overlaps itself; two
    rectangles that share an edge ([a.x_max = b.x_min], their vertical
    extents meeting) overlap; two rectangles with a positive gap between
    them on either axis do not. *)
Theorem overlap_symmetric_reflexive_touching_gap (a b r : Rect.t) :
  _overlap a b = _overlap b a /\
  (is_rectangle r -> _overlap r r = true) /\
  (is_rectangle a -> is_rectangle b ->
   Rect.x_max a = Rect.x_min b ->
   Rect.y_min a <= Rect.y_max b -> Rect.y_min b <= Rect.y_max a ->
   _overlap a b = true) /\
  (Rect.x_max a < Rect.x_min b \/ Rect.x_max b < Rect.x_min a \/
   Rect.y_max a < Rect.y_min b \/ Rect.y_max b < Rect.y_min a ->
   _overlap a b = false).
Proof.
  unfold is_rectangle.
  split; [apply overlap_sym|].
  split; [intros Hr; apply overlap_true_iff; lia|].
  split; [intros Ha Hb Hx Hy1 Hy2; apply overlap_true_iff; lia|].
  intros Hgap. now apply overlap_false_iff.
Qed.

Lemma overlap_symmetric_reflexive_touching_gap_witness :
  let a := Rect.mk 0 0 10 10 in
  let b := Rect.mk 10 5 20 15 in
  let c := Rect.mk 11 0 20 10 in
  _overlap a a = true /\ _overlap a b = true /\ _overlap b a = true /\
  _overlap a c = false.
Proof.
  intros a b c.
  destruct (overlap_symmetric_reflexive_touching_gap a b a) as (Hs & Hr & Ht & _).
  destruct (overlap_symmetric_reflexive_touching_gap a c a) as (_ & _ & _ & Hg).
  assert (Ha : is_rectangle a) by (unfold is_rectangle; simpl; lia).
  assert (Hb : is_rectangle b) by (unfold is_rectangle; simpl; lia).
  assert (Hab : _overlap a b = true)
    by (apply Ht; [exact Ha | exact Hb | reflexivity | simpl; lia | simpl; lia]).
  split; [exact (Hr Ha)|].
  split; [exact Hab|].
  split; [rewrite <- Hs; exact Hab|].
  apply Hg. left. simpl. lia.
Defined.

(** The cases of [tests/unit/test_drawing.py]. *)
Example test_overlapping_rectangles :
  _overlap (Rect.mk 0 0 10 10) (Rect.mk 5 5 15 15) = true.
Proof. reflexivity. Qed.

Example test_non_overlapping_rectangles :
  _overlap (Rect.mk 0 0 10 10) (Rect.mk 20 20 30 30) = false.
Proof. reflexivity. Qed.

Example test_touching_rectangles :
  _overlap (Rect.mk 0 0 10 10) (Rect.mk 10 10 20 20) = true.
Proof. reflexivity. Qed.

Example test_contained_rectangle :
  _overlap (Rect.mk 0 0 20 20) (Rect.mk 5 5 15 15) = true.
Proof. reflexivity. Qed.

(** The scenario of the design document: one detection at
    (0.2, 0.3)-(0.6, 0.7) on a 1280x720 canvas, labelled "a person". *)
Example scenario_a_person :
  exists plan,
    draw_bounding_boxes settings fixed_pitch frame_720p
      [Obj.set_label a_person (py "a person")]
    = ([(Rect.mk 256 216 768 504, Some plan)], [Rect.mk 241 201 367 232]) /\
    dp_lines plan = [py "a person"] /\
    dp_label_y_start plan = 216 - 10 /\
    dp_line_width plan + 30 <= 367 - 241.
Proof.
  eexists. split; [vm_compute; reflexivity|].
  repeat split; vm_compute; congruence.
Qed.

Example wrap_sample_caption :
  wrap_lines fixed_pitch 300 sample_caption
  = [py "a person wearing a blue"; py "shirt and a hat"].
Proof. reflexivity. Qed.

Example wrap_double_spaces :
  wrap_lines fixed_pitch 300 (py "  a   person ") = [py "a person"].
Proof. reflexivity. Qed.

(* ================================================================== *)
(** * FPS bookkeeping *)
(* ================================================================== *)

Section FpsBookkeeping.

Variable cfg : Settings.
Variable F : Type.
Context `{FloatOps F}.

Local Notation "'tick'" := (_calculate_fps cfg).

Lemma calculate_fps_below (self : VideoProcessor F) (now : F) :
  frame_count self + 1 < FPS_POLL_RATE cfg ->
  tick self now =
  {| mode := mode self; frame_count := frame_count self + 1;
     fps := fps self; start_time := start_time self;
     latest_objects := latest_objects self |}.
Proof.
  intros Hlt. unfold _calculate_fps.
  destruct (Z.geb_spec (frame_count self + 1) (FPS_POLL_RATE cfg)); [lia|].
  reflexivity.
Qed.

Lemma calculate_fps_reached (self : VideoProcessor F) (now : F) :
  FPS_POLL_RATE cfg <= frame_count self + 1 ->
  tick self now =
  {| mode := mode self; frame_count := 0;
     fps := if fgt (fsub now (start_time self)) (of_int 0)
            then fdiv (of_int (frame_count self + 1))
                      (fsub now (start_time self))
            else fps self;
     start_time := now;
     latest_objects := latest_objects self |}.
Proof.
  intros Hge. unfold _calculate_fps.
  destruct (Z.geb_spec (frame_count self + 1) (FPS_POLL_RATE cfg)); [|lia].
  reflexivity.
Qed.

(** Calls that do not reach the poll rate only count. *)
Lemma calculate_fps_counting (readings : list F) :
  forall self : VideoProcessor F,
    frame_count self + Z.of_nat (length readings) < FPS_POLL_RATE cfg ->
    let during := fold_left tick readings self in
    frame_count during = frame_count self + Z.of_nat (length readings) /\
    fps during = fps self /\ start_time during = start_time self /\
    latest_objects during = latest_objects self /\ mode during = mode self.
Proof.
  induction readings as [|now readings IH]; intros self Hlt; simpl in *.
  - repeat split; lia.
  - specialize (IH (tick self now)).
    rewrite calculate_fps_below in * by lia. simpl in IH.
    destruct IH as (Hc & Hf & Hs & Hl & Hm); [lia|].
    repeat split; try assumption. rewrite Hc. lia.
Qed.

(** C8.  From a counter at 0, [FPS_POLL_RATE] calls of [_calculate_fps], the
    last of them reading the clock [t] seconds ([t > 0]) after the window
    started, leave [fps = FPS_POLL_RATE / t], the counter at 0 and the
    window starting at the reading; after any smaller number of calls the
    stored [fps] is still the one computed before. *)
Theorem fps_after_poll_rate_calls
    (self : VideoProcessor F) (readings : list F) (end_time : F) :
  1 <= FPS_POLL_RATE cfg ->
  frame_count self = 0 ->
  Z.of_nat (length readings) = FPS_POLL_RATE cfg - 1 ->
  fgt (fsub end_time (start_time self)) (of_int 0) = true ->
  let after := fold_left tick (readings ++ [end_time]) self in
  fps after =
    fdiv (of_int (FPS_POLL_RATE cfg)) (fsub end_time (start_time self)) /\
  frame_count after = 0 /\
  start_time after = end_time /\
  forall k : nat,
    (k <= length readings)%nat ->
    let during := fold_left tick (firstn k readings) self in
    fps during = fps self /\ frame_count during = Z.of_nat k /\
    start_time during = start_time self.
Proof.
  intros Hpos Hzero Hlen Helapsed after.
  assert (Hprefix : forall k : nat,
             (k <= length readings)%nat ->
             let during := fold_left tick (firstn k readings) self in
             fps during = fps self /\ frame_count during = Z.of_nat k /\
             start_time during = start_time self).
  { intros k Hk during.
    destruct (calculate_fps_counting (firstn k readings) self)
      as (Hc & Hf & Hs & _).
    - rewrite length_firstn. lia.
    - subst during. rewrite Hc, length_firstn, Hzero.
      repeat split; try assumption; lia. }
  destruct (Hprefix (length readings) (le_n _)) as (Hf & Hc & Hs).
  rewrite firstn_all in Hf, Hc, Hs.
  subst after. rewrite fold_left_app. simpl.
  rewrite calculate_fps_reached by lia. simpl.
  rewrite Hs, Helapsed, Hc.
  split; [f_equal; f_equal; lia|].
  split; [reflexivity|]. split; [reflexivity|]. exact Hprefix.
Qed.

End FpsBookkeeping.

Lemma fps_after_poll_rate_calls_witness :
  let self := VideoProcessor_init "detect" 100%Q in
  let readings := [100.2; 100.4; 100.6; 100.8; 101; 101.2; 101.4; 101.6; 101.8]%Q in
  let after := fold_left (_calculate_fps settings) (readings ++ [102%Q]) self in
  fps after = (inject_Z 10 / (102 - 100))%Q /\ frame_count after = 0 /\
  start_time after = 102%Q /\
  fps (fold_left (_calculate_fps settings) (firstn 4 readings) self) = 0%Q.
Proof.
  intros self readings after.
  destruct (@fps_after_poll_rate_calls settings Q _ self readings 102%Q)
    as (Hf & Hc & Hs & Hk).
  - simpl. lia.
  - reflexivity.
  - reflexivity.
  - reflexivity.
  - split; [exact Hf|]. split; [exact Hc|]. split; [exact Hs|].
    destruct (Hk 4%nat) as (H4 & _); [simpl; lia|]. exact H4.
Defined.

(* ================================================================== *)
(** * The detector wrapper and the captioning loop *)
(* ================================================================== *)

Lemma bind_returned {E A B : Type} (a : A) (f : A -> M E B) :
  bind (Returns a, []) f = f a.
Proof. unfold bind. destruct (f a) as [r t]. reflexivity. Qed.

Section PipelineFacts.

Variable cfg : Settings.
Variable getTextSize : str -> Z * Z.
Variable F : Type.
Context `{FloatOps F}.
Variables Frame Image : Type.
Variable shape : Frame -> Z * Z.
Variable fromarray : Frame -> Image.
Variable size : Image -> Z * Z.
Variable crop : Image -> Z * Z * Z * Z -> outcome Image.
Variable model_detect : Image -> str -> Z -> outcome (option (list (Obj.t F))).
Variable model_caption : Image -> outcome (option str).

Local Notation "'detect_objects_'" := (detect_objects cfg model_detect).
Local Notation "'caption_image_'" := (caption_image model_caption).
Local Notation "'label_object_'" :=
  (label_object shape size crop model_caption).
Local Notation "'process_frame_'" :=
  (_process_frame cfg getTextSize shape fromarray size crop
                  model_detect model_caption).
Local Notation "'run_'" :=
  (run cfg getTextSize shape fromarray size crop model_detect model_caption).

(** The model raises nothing but instances of [Exception]. *)
Local Notation "'detect_raises_exceptions_only'" :=
  (forall image prompt n e,
      model_detect image prompt n = Raises e -> exists msg, e = PyException msg).
Local Notation "'caption_raises_exceptions_only'" :=
  (forall image e,
      model_caption image = Raises e -> exists msg, e = PyException msg).
Local Notation "'crop_accepts_ordered_boxes_'" :=
  (crop_accepts_ordered_boxes crop).
Local Notation "'detections_in_order_'" :=
  (detections_in_order cfg shape fromarray model_detect).

Lemma detect_objects_calls_once (image : Image) (prompt : str) :
  snd (detect_objects_ image prompt)
  = [Detect image prompt (MAX_OBJECTS cfg)].
Proof.
  unfold detect_objects, try_except, bind, ret.
  destruct (model_detect image prompt (MAX_OBJECTS cfg)) as [r|[msg|msg]];
    reflexivity.
Qed.

Lemma caption_image_calls_once (image : Image) :
  snd (caption_image_ image) = [Caption image].
Proof.
  unfold caption_image, try_except, bind, ret.
  destruct (model_caption image) as [r|[msg|msg]]; reflexivity.
Qed.

Lemma detect_objects_catches (image : Image) (prompt msg : str) :
  model_detect image prompt (MAX_OBJECTS cfg) = Raises (PyException msg) ->
  detect_objects_ image prompt
  = (Returns [], [Detect image prompt (MAX_OBJECTS cfg)]).
Proof.
  intros Hraise. unfold detect_objects, try_except, bind, ret.
  rewrite Hraise. reflexivity.
Qed.

Lemma caption_image_catches (image : Image) (msg : str) :
  model_caption image = Raises (PyException msg) ->
  caption_image_ image = (Returns [], [Caption image]).
Proof.
  intros Hraise. unfold caption_image, try_except, bind, ret.
  rewrite Hraise. reflexivity.
Qed.

Lemma caption_image_returns_caption (image : Image) (caption : str) :
  model_caption image = Returns (Some caption) ->
  caption_image_ image = (Returns caption, [Caption image]).
Proof.
  intros Hret. unfold caption_image, try_except, bind, ret.
  rewrite Hret. reflexivity.
Qed.

Lemma detect_objects_returns (image : Image) (prompt : str) :
  detect_raises_exceptions_only ->
  exists objects, fst (detect_objects_ image prompt) = Returns objects.
Proof.
  intros Honly. unfold detect_objects, try_except, bind, ret.
  destruct (model_detect image prompt (MAX_OBJECTS cfg)) as [r|e] eqn:E.
  - eexists. reflexivity.
  - destruct (Honly _ _ _ _ E) as [msg ->]. eexists. reflexivity.
Qed.

Lemma caption_image_returns (image : Image) :
  caption_raises_exceptions_only ->
  exists caption, fst (caption_image_ image) = Returns caption.
Proof.
  intros Honly. unfold caption_image, try_except, bind, ret.
  destruct (model_caption image) as [r|e] eqn:E.
  - eexists. reflexivity.
  - destruct (Honly _ _ E) as [msg ->]. eexists. reflexivity.
Qed.

Lemma label_object_returns
    (self_mode : string) (frame : Frame) (pil_image : Image)
    (current_prompt : str) (obj : Obj.t F) :
  caption_raises_exceptions_only ->
  (exists cropped_image,
      crop pil_image (pixel_box shape frame obj) = Returns cropped_image) ->
  exists obj',
    fst (label_object_ self_mode frame pil_image current_prompt obj)
    = Returns obj'.
Proof.
  intros Honly [cropped Hcrop]. unfold label_object.
  destruct (String.eqb self_mode "caption"); [|eexists; reflexivity].
  rewrite Hcrop, bind_returned.
  destruct (positive_size (size cropped)); [|eexists; reflexivity].
  destruct (caption_image_returns cropped Honly) as [caption Hc].
  unfold bind. destruct (caption_image_ cropped) as [r t]. simpl in Hc.
  subst r. eexists. reflexivity.
Qed.

Lemma for_each_returns {A B : Type} (f : A -> M (event Image) B) (xs : list A) :
  Forall (fun x => exists y, fst (f x) = Returns y) xs ->
  exists ys, fst (for_each f xs) = Returns ys.
Proof.
  induction 1 as [|x xs [y Hy] _ [ys Hys]]; simpl.
  - eexists. reflexivity.
  - unfold bind. destruct (f x) as [r t]. simpl in Hy. subst r.
    destruct (for_each f xs) as [r' t']. simpl in Hys. subst r'.
    eexists. reflexivity.
Qed.

(** With a model that raises only [Exception]s and detections that [crop]
    accepts, a frame is always processed to the end. *)
Lemma process_frame_returns (self : VideoProcessor F) (inp : FrameInput F Frame) :
  detect_raises_exceptions_only -> caption_raises_exceptions_only ->
  crop_accepts_ordered_boxes_ -> detections_in_order_ inp ->
  exists result, fst (process_frame_ self inp) = Returns result.
Proof.
  intros Hd Hc Hcrop Horder. unfold _process_frame.
  destruct (runs_inference cfg self); [|eexists; reflexivity].
  assert (Hobjects :
            exists objects,
              fst (detect_objects_ (fromarray (fi_frame inp)) (fi_prompt inp))
              = Returns objects /\
              Forall (fun obj => box_in_order (pixel_box shape (fi_frame inp) obj))
                     objects).
  { unfold detect_objects, try_except, bind, ret.
    destruct (model_detect (fromarray (fi_frame inp)) (fi_prompt inp)
                           (MAX_OBJECTS cfg)) as [[objects|]|e] eqn:E.
    - exists objects. split; [reflexivity|]. now apply Horder.
    - exists []. split; [reflexivity|constructor].
    - destruct (Hd _ _ _ _ E) as [msg ->].
      exists []. split; [reflexivity|constructor]. }
  destruct Hobjects as (objects & Hobjects & Hboxes).
  unfold bind at 2.
  destruct (detect_objects_ (fromarray (fi_frame inp)) (fi_prompt inp))
    as [r t]. simpl in Hobjects. subst r.
  destruct (for_each_returns
              (label_object_ (mode self) (fi_frame inp)
                             (fromarray (fi_frame inp)) (fi_prompt inp))
              objects) as [labelled Hl].
  { eapply Forall_impl; [|exact Hboxes].
    intros obj Hbox. apply label_object_returns; [exact Hc|].
    now apply Hcrop. }
  destruct (for_each _ objects) as [r' t']. simpl in Hl. subst r'.
  eexists. reflexivity.
Qed.

Lemma run_never_crashes (source : list (FrameInput F Frame)) :
  detect_raises_exceptions_only -> caption_raises_exceptions_only ->
  crop_accepts_ordered_boxes_ -> Forall detections_in_order_ source ->
  forall (self : VideoProcessor F) e calls,
    snd (run_ self source) <> Crashed e calls.
Proof.
  intros Hd Hc Hcrop Horder.
  induction Horder as [|inp source Hinp _ IH]; intros self e calls; simpl.
  - discriminate.
  - destruct (process_frame_returns self inp Hd Hc Hcrop Hinp)
      as [[self' rendered] Hr].
    destruct (process_frame_ self inp) as [r t]. simpl in Hr. subst r.
    destruct (Z.land (fi_key inp) 255 =? 113); [discriminate|].
    specialize (IH self' e calls).
    destruct (run_ self' source) as [reports e']. simpl in *. exact IH.
Qed.

(** A failed detection leaves the cycle with no detection at all. *)
Lemma process_frame_detect_failure
    (self : VideoProcessor F) (inp : FrameInput F Frame) (msg : str) :
  runs_inference cfg self = true ->
  model_detect (fromarray (fi_frame inp)) (fi_prompt inp) (MAX_OBJECTS cfg)
  = Raises (PyException msg) ->
  exists self' rendered,
    process_frame_ self inp
    = (Returns (self', rendered),
       [Detect (fromarray (fi_frame inp)) (fi_prompt inp) (MAX_OBJECTS cfg)]) /\
    latest_objects self' = [] /\ r_objects rendered = [].
Proof.
  intros Hgate Hraise. unfold _process_frame. rewrite Hgate.
  rewrite (detect_objects_catches _ _ _ Hraise). simpl.
  eexists. eexists. split; [reflexivity|]. split; [|reflexivity].
  unfold _calculate_fps. simpl.
  destruct (frame_count self + 1 >=? FPS_POLL_RATE cfg); reflexivity.
Qed.


(** C2, as the code has it.  In caption mode a detection whose crop has no
    positive width or no positive height is labelled with the current
    prompt, and the model is not called for it; a detection whose crop has
    positive width and height costs exactly one call of [caption], and what
    [caption_image] returns is its label. *)
Theorem caption_mode_labels
    (frame : Frame) (pil_image : Image) (current_prompt : str) (obj : Obj.t F)
    (cropped_image : Image) :
  crop pil_image (pixel_box shape frame obj) = Returns cropped_image ->
  let labelled :=
    label_object_ "caption"%string frame pil_image current_prompt obj in
  (fst (size cropped_image) <= 0 \/ snd (size cropped_image) <= 0 ->
   labelled = (Returns (Obj.set_label obj current_prompt), [])) /\
  (0 < fst (size cropped_image) /\ 0 < snd (size cropped_image) ->
   snd labelled = [Caption cropped_image] /\
   (forall caption,
       fst (caption_image_ cropped_image) = Returns caption ->
       fst labelled = Returns (Obj.set_label obj caption)) /\
   (forall caption,
       model_caption cropped_image = Returns (Some caption) ->
       labelled = (Returns (Obj.set_label obj caption),
                   [Caption cropped_image]))).
Proof.
  intros Hcrop labelled. subst labelled. unfold label_object, positive_size.
  simpl String.eqb. cbv iota. rewrite Hcrop, bind_returned.
  split.
  - intros Hdegenerate.
    assert (Hguard : (fst (size cropped_image) >? 0)
                     && (snd (size cropped_image) >? 0) = false).
    { apply andb_false_iff. rewrite !Z.gtb_ltb, !Z.ltb_ge. exact Hdegenerate. }
    rewrite Hguard. reflexivity.
  - intros [Hw Hh].
    assert (Hguard : (fst (size cropped_image) >? 0)
                     && (snd (size cropped_image) >? 0) = true).
    { apply andb_true_iff. rewrite !Z.gtb_ltb, !Z.ltb_lt. now split. }
    rewrite Hguard.
    pose proof (caption_image_calls_once cropped_image) as Hcalls.
    split; [|split].
    + unfold bind. destruct (caption_image_ cropped_image) as [[l|e] t];
        simpl in *; subst t; reflexivity.
    + intros caption Hret. unfold bind.
      destruct (caption_image_ cropped_image) as [r t]. simpl in Hret.
      subst r. reflexivity.
    + intros caption Hret.
      rewrite (caption_image_returns_caption _ _ Hret). reflexivity.
Qed.

End PipelineFacts.

Lemma dims_crop_accepts_ordered_boxes : crop_accepts_ordered_boxes dims_crop.
Proof.
  intros image [[[x0 y0] x1] y1] [Hx Hy]. unfold dims_crop.
  destruct (Z.ltb_spec x1 x0); [lia|].
  destruct (Z.ltb_spec y1 y0); [lia|].
  eexists. reflexivity.
Qed.


Lemma caption_mode_labels_witness :
  let caption := py "a person wearing a blue shirt" in
  let label_of :=
    label_object dims_shape dims_size dims_crop (model_says caption)
                 "caption" frame_720p (1280, 720) (py "a person") in
  label_of a_sliver = (Returns (Obj.set_label a_sliver (py "a person")), []) /\
  label_of a_person
  = (Returns (Obj.set_label a_person caption), [Caption (512, 288)]).
Proof.
  intros caption label_of.
  assert (Hsliver : dims_crop (1280, 720)
                              (pixel_box dims_shape frame_720p a_sliver)
                    = Returns (0, 288)) by reflexivity.
  assert (Hperson : dims_crop (1280, 720)
                              (pixel_box dims_shape frame_720p a_person)
                    = Returns (512, 288)) by reflexivity.
  destruct (@caption_mode_labels
              Q _ (Z * Z)%type (Z * Z)%type dims_shape dims_size dims_crop
              (model_says caption) frame_720p (1280, 720) (py "a person")
              a_sliver (0, 288) Hsliver) as (Hdegenerate & _).
  destruct (@caption_mode_labels
              Q _ (Z * Z)%type (Z * Z)%type dims_shape dims_size dims_crop
              (model_says caption) frame_720p (1280, 720) (py "a person")
              a_person (512, 288) Hperson) as (_ & Hnormal).
  split.
  - apply Hdegenerate. left. vm_compute. discriminate.
  - destruct Hnormal as (_ & _ & Hlabel).
    + split; reflexivity.
    + apply Hlabel. reflexivity.
Defined.

(** C2 as stated fails: the label of a detection with a zero-width crop is
    the prompt, not the empty string, and it is set. *)
Lemma degenerate_crop_label_is_not_empty :
  let labelled :=
    label_object dims_shape dims_size dims_crop
                 (model_says (py "a person wearing a blue shirt"))
                 "caption" frame_720p (1280, 720) (py "a person") a_sliver in
  (exists cropped_image,
      dims_crop (1280, 720) (pixel_box dims_shape frame_720p a_sliver)
      = Returns cropped_image /\
      fst (dims_size cropped_image) = 0) /\
  snd labelled = [] /\
  exists obj',
    fst labelled = Returns obj' /\
    Obj.label obj' = Some (py "a person") /\
    Obj.label obj' <> Some [] /\ Obj.label obj' <> None.
Proof.
  intros labelled.
  split; [exists (0, 288); split; reflexivity|]. split; [reflexivity|].
  exists (Obj.set_label a_sliver (py "a person")).
  split; [reflexivity|]. split; [reflexivity|].
  split; discriminate.
Qed.

(* ================================================================== *)
(** * The inference gate *)
(* ================================================================== *)

Section FrameSkip.

Variable cfg : Settings.
Variable getTextSize : str -> Z * Z.
Variable F : Type.
Context `{FloatOps F}.
Variables Frame Image : Type.
Variable shape : Frame -> Z * Z.
Variable fromarray : Frame -> Image.
Variable size : Image -> Z * Z.
Variable crop : Image -> Z * Z * Z * Z -> outcome Image.
Variable model_detect : Image -> str -> Z -> outcome (option (list (Obj.t F))).
Variable model_caption : Image -> outcome (option str).

Local Notation "'process_frame_'" :=
  (_process_frame cfg getTextSize shape fromarray size crop
                  model_detect model_caption).
Local Notation "'run_'" :=
  (run cfg getTextSize shape fromarray size crop model_detect model_caption).
Local Notation "'skip'" := (FRAME_SKIP cfg).
Local Notation "'poll_rate'" := (FPS_POLL_RATE cfg).

Lemma calculate_fps_count (self : VideoProcessor F) (now : F) :
  0 < poll_rate -> 0 <= frame_count self < poll_rate ->
  frame_count (_calculate_fps cfg self now)
  = (frame_count self + 1) mod poll_rate.
Proof.
  intros Hp Hc. unfold _calculate_fps.
  destruct (Z.geb_spec (frame_count self + 1) poll_rate); simpl.
  - replace (frame_count self + 1) with poll_rate by lia.
    now rewrite Z.mod_same by lia.
  - now rewrite Z.mod_small by lia.
Qed.

Lemma calculate_fps_keeps_objects (self : VideoProcessor F) (now : F) :
  latest_objects (_calculate_fps cfg self now) = latest_objects self.
Proof.
  unfold _calculate_fps.
  destruct (frame_count self + 1 >=? poll_rate); reflexivity.
Qed.

Lemma bind_returns_inv {E A B : Type}
    (m : M E A) (f : A -> M E B) (b : B) (t : list E) :
  bind m f = (Returns b, t) ->
  exists a t1 t2, m = (Returns a, t1) /\ f a = (Returns b, t2) /\ t = t1 ++ t2.
Proof.
  unfold bind. destruct m as [[a|e] t1]; [|discriminate].
  destruct (f a) as [r t2] eqn:E'. intros Heq. inversion Heq; subst.
  exists a, t1, t2. split; [reflexivity|]. split; [exact E'|reflexivity].
Qed.

(** What a processed frame leaves behind. *)
Lemma process_frame_effect
    (self self' : VideoProcessor F) (inp : FrameInput F Frame)
    (rendered : Rendered F) (calls : list (event Image)) :
  0 < poll_rate -> 0 <= frame_count self < poll_rate ->
  process_frame_ self inp = (Returns (self', rendered), calls) ->
  frame_count self' = (frame_count self + 1) mod poll_rate /\
  latest_objects self' = r_objects rendered /\
  (runs_inference cfg self = true -> existsb is_Detect calls = true) /\
  (runs_inference cfg self = false ->
   calls = [] /\ r_objects rendered = latest_objects self).
Proof.
  intros Hp Hc Hprocess. unfold _process_frame in Hprocess.
  apply bind_returns_inv in Hprocess.
  destruct Hprocess as (latest & t1 & t2 & Hlatest & Hret & ->).
  unfold ret in Hret. inversion Hret; subst; clear Hret. simpl.
  rewrite calculate_fps_count, calculate_fps_keeps_objects by assumption.
  simpl. split; [reflexivity|]. split; [reflexivity|].
  destruct (runs_inference cfg self).
  - split; [intros _|discriminate].
    apply bind_returns_inv in Hlatest.
    destruct Hlatest as (detected & t1a & t1b & Hdetect & _ & ->).
    pose proof (detect_objects_calls_once
                  cfg _ _ model_detect (fromarray (fi_frame inp)) (fi_prompt inp))
      as Hcalls.
    rewrite Hdetect in Hcalls. simpl in Hcalls. subst t1a. reflexivity.
  - split; [discriminate|intros _].
    unfold ret in Hlatest. inversion Hlatest; subst. split; reflexivity.
Qed.

Lemma run_gate (source : list (FrameInput F Frame)) :
  0 < poll_rate ->
  forall (self : VideoProcessor F) (i : nat) (report : Report F Image),
    0 <= frame_count self < poll_rate ->
    nth_error (fst (run_ self source)) i = Some report ->
    let count := (frame_count self + Z.of_nat i) mod poll_rate in
    (count mod skip = 0 -> existsb is_Detect (rp_calls report) = true) /\
    (count mod skip <> 0 ->
     rp_calls report = [] /\
     rendered_before self (fst (run_ self source)) i
     = Some (r_objects (rp_rendered report))).
Proof.
  intros Hp. induction source as [|inp source IH]; intros self i report Hc Hnth.
  - destruct i; discriminate.
  - simpl in Hnth |- *.
    destruct (process_frame_ self inp) as [[[self' rendered]|e] calls] eqn:E;
      [|destruct i; discriminate].
    destruct (process_frame_effect _ _ _ _ _ Hp Hc E) as (Hcount & Hlatest & Hran & Hskipped).
    assert (Hc' : 0 <= frame_count self' < poll_rate)
      by (rewrite Hcount; apply Z.mod_pos_bound; lia).
    destruct i as [|j].
    + (* the first frame *)
      assert (Hreport : report = {| rp_calls := calls; rp_rendered := rendered |}).
      { destruct (Z.land (fi_key inp) 255 =? 113);
          [|destruct (run_ self' source)]; simpl in Hnth; congruence. }
      subst report. simpl.
      rewrite Z.add_0_r, (Z.mod_small (frame_count self) poll_rate) by lia.
      unfold runs_inference in Hran, Hskipped. split.
      * intros Hz. apply Hran. now apply Z.eqb_eq.
      * intros Hnz. destruct Hskipped as [-> ->]; [now apply Z.eqb_neq|].
        split; reflexivity.
    + (* a later frame *)
      destruct (Z.land (fi_key inp) 255 =? 113);
        [destruct j; discriminate|].
      specialize (IH self' j report Hc').
      destruct (run_ self' source) as [reports ending'] eqn:R.
      simpl in Hnth, IH |- *. specialize (IH Hnth).
      rewrite Zpos_P_of_succ_nat.
      replace ((frame_count self + Z.succ (Z.of_nat j)) mod poll_rate)
        with ((frame_count self' + Z.of_nat j) mod poll_rate).
      2:{ rewrite Hcount, Zplus_mod_idemp_l. f_equal. lia. }
      destruct IH as [IHran IHskipped]. split; [exact IHran|].
      intros Hnz. destruct (IHskipped Hnz) as [Hcalls Hbefore].
      split; [exact Hcalls|].
      destruct j as [|j']; simpl in Hbefore |- *.
      * now rewrite <- Hlatest.
      * exact Hbefore.
Qed.

(** C4, what the code does instead.  The gate tests the FPS frame counter,
    which [_calculate_fps] restarts every [FPS_POLL_RATE] frames: frame
    [i] of a run runs inference exactly when
    [(i mod FPS_POLL_RATE) mod FRAME_SKIP = 0], and not on every
    [FRAME_SKIP]-th frame as the comments of lines 87 and of [FRAME_SKIP]
    say.  Only when [FRAME_SKIP] divides [FPS_POLL_RATE], as 5 divides 10,
    are these the frames whose index is a multiple of [FRAME_SKIP].  On
    every other frame the model is not called and the list handed to the
    renderer is the one rendered on the frame before. *)
Theorem inference_gate_follows_fps_counter
    (self_mode : string) (now : F) (source : list (FrameInput F Frame))
    (i : nat) (report : Report F Image) :
  0 < skip -> 0 < poll_rate ->
  let reports := fst (run_ (VideoProcessor_init self_mode now) source) in
  nth_error reports i = Some report ->
  let inference_ran := existsb is_Detect (rp_calls report) in
  (inference_ran = true <-> (Z.of_nat i mod poll_rate) mod skip = 0) /\
  ((skip | poll_rate) -> (inference_ran = true <-> Z.of_nat i mod skip = 0)) /\
  (inference_ran = false ->
   rp_calls report = [] /\
   exists previous,
     nth_error reports (i - 1) = Some previous /\ (0 < i)%nat /\
     r_objects (rp_rendered report) = r_objects (rp_rendered previous)).
Proof.
  intros Hs Hp reports Hnth inference_ran.
  destruct (run_gate source Hp (VideoProcessor_init self_mode now) i report)
    as [Hran Hskipped]; [simpl; lia | exact Hnth |].
  simpl frame_count in Hran, Hskipped. rewrite Z.add_0_l in Hran, Hskipped.
  assert (Hiff : inference_ran = true
                 <-> (Z.of_nat i mod poll_rate) mod skip = 0).
  { split; [|exact Hran].
    intros Hdid.
    destruct (Z.eq_dec ((Z.of_nat i mod poll_rate) mod skip) 0) as [Hz|Hnz];
      [exact Hz|].
    destruct (Hskipped Hnz) as [Hcalls _]. subst inference_ran.
    rewrite Hcalls in Hdid. discriminate. }
  split; [exact Hiff|]. split.
  - intros Hdiv. rewrite Hiff.
    now rewrite (Z.mod_mod_divide (Z.of_nat i) poll_rate skip Hdiv).
  - intros Hnot.
    assert (Hnz : (Z.of_nat i mod poll_rate) mod skip <> 0).
    { intros Hz. apply Hran in Hz. fold inference_ran in Hz. congruence. }
    destruct (Hskipped Hnz) as [Hcalls Hbefore].
    split; [exact Hcalls|].
    destruct i as [|j].
    + exfalso. apply Hnz. simpl. now rewrite !Z.mod_0_l by lia.
    + simpl in Hbefore. fold reports in Hbefore.
      replace (S j - 1)%nat with j by lia.
      destruct (nth_error reports j) as [previous|]; [|discriminate].
      exists previous. simpl in Hbefore.
      split; [reflexivity|]. split; [lia|]. congruence.
Qed.

End FrameSkip.

Lemma inference_gate_follows_fps_counter_witness :
  let reports :=
    fst (run settings fixed_pitch dims_shape dims_fromarray dims_size dims_crop
             (model_finds [a_person]) (model_says (py "a person"))
             (VideoProcessor_init "detect" 0%Q) (frames_from 0 12)) in
  (exists report,
      nth_error reports 10 = Some report /\
      existsb is_Detect (rp_calls report) = true) /\
  (exists report previous,
      nth_error reports 7 = Some report /\
      nth_error reports 6 = Some previous /\
      rp_calls report = [] /\
      r_objects (rp_rendered report) = r_objects (rp_rendered previous)).
Proof.
  intros reports.
  assert (Hskip : 0 < FRAME_SKIP settings) by (simpl; lia).
  assert (Hpoll : 0 < FPS_POLL_RATE settings) by (simpl; lia).
  split.
  - destruct (nth_error reports 10) as [report|] eqn:E;
      [|vm_compute in E; discriminate].
    exists report. split; [reflexivity|].
    pose proof (@inference_gate_follows_fps_counter
                  settings fixed_pitch Q _ _ _ dims_shape dims_fromarray
                  dims_size dims_crop (model_finds [a_person])
                  (model_says (py "a person")) "detect"%string 0%Q
                  (frames_from 0 12) 10%nat report Hskip Hpoll) as Hgate.
    specialize (Hgate E). destruct Hgate as (_ & Hdivides & _).
    apply Hdivides.
    + exists 2. reflexivity.
    + reflexivity.
  - destruct (nth_error reports 7) as [report|] eqn:E;
      [|vm_compute in E; discriminate].
    pose proof (@inference_gate_follows_fps_counter
                  settings fixed_pitch Q _ _ _ dims_shape dims_fromarray
                  dims_size dims_crop (model_finds [a_person])
                  (model_says (py "a person")) "detect"%string 0%Q
                  (frames_from 0 12) 7%nat report Hskip Hpoll) as Hgate.
    specialize (Hgate E). destruct Hgate as (Hiff & _ & Hskipped).
    destruct Hskipped as (Hcalls & previous & Hprevious & _ & Hsame).
    + destruct (existsb is_Detect (rp_calls report)); [|reflexivity].
      destruct Hiff as [Hran _]. specialize (Hran eq_refl).
      vm_compute in Hran. discriminate.
    + exists report, previous.
      split; [reflexivity|]. split; [exact Hprevious|].
      split; [exact Hcalls | exact Hsame].
Defined.

(** C4 at the failing input, an interval that does not divide the poll
    rate: with [FRAME_SKIP = 3] and [FPS_POLL_RATE = 10] inference runs on
    frame 10 (and on frame 9 just before it), and 10 is no multiple of 3. *)
Lemma inference_runs_off_multiples_of_skip :
  let reports :=
    fst (run settings_skip_3 fixed_pitch dims_shape dims_fromarray dims_size
             dims_crop (model_finds [a_person]) (model_says (py "a person"))
             (VideoProcessor_init "detect" 0%Q) (frames_from 0 12)) in
  0 < FRAME_SKIP settings_skip_3 /\
  10 mod FRAME_SKIP settings_skip_3 <> 0 /\
  map (fun report => existsb is_Detect (rp_calls report)) reports
  = [true; false; false; true; false; false; true; false; false; true;
     true; false].
Proof.
  intros reports. split; [simpl; lia|]. split; [vm_compute; discriminate|].
  vm_compute. reflexivity.
Qed.

(* ================================================================== *)
(** * Label placement *)
(* ================================================================== *)

Section Placement.

Variable cfg : Settings.
Variable getTextSize : str -> Z * Z.

Local Notation "'draw_'" := (_draw_wrapped_text cfg getTextSize).

(** The widest line, as lines 151-154 compute it. *)
Local Notation "'max_width_of' lines" :=
  (fold_left (fun m line => Z.max m (fst (getTextSize line))) lines 0)
  (at level 10).

(** The accepted footprint is always the 15/5 area of the accepted
    position. *)
Lemma avoid_overlap_area
    (y_min x_max frame_width line_width line_height total_text_height : Z)
    (label_x label_y_start : Z) (used_areas : list Rect.t)
    (label_x' label_y_start' : Z) (area : Rect.t) :
  avoid_overlap y_min x_max frame_width line_width line_height
                total_text_height label_x label_y_start used_areas
  = (label_x', label_y_start', area) ->
  area = text_area_at label_x' label_y_start' line_width total_text_height.
Proof.
  unfold avoid_overlap.
  destruct (overlap_found_in
              (text_area_at label_x label_y_start line_width
                            total_text_height) used_areas);
    destruct (label_y_start >? y_min); simpl;
    try destruct (overlap_found_in _ used_areas);
    intros Heq; inversion Heq; subst; reflexivity.
Qed.

(** The accepted abscissa is the candidate's or the shifted one. *)
Lemma avoid_overlap_abscissa
    (y_min x_max frame_width line_width line_height total_text_height : Z)
    (label_x label_y_start : Z) (used_areas : list Rect.t)
    (label_x' label_y_start' : Z) (area : Rect.t) :
  avoid_overlap y_min x_max frame_width line_width line_height
                total_text_height label_x label_y_start used_areas
  = (label_x', label_y_start', area) ->
  label_x' = label_x \/
  label_x' = Z.min (frame_width - line_width - 15) (x_max + 10).
Proof.
  unfold avoid_overlap.
  destruct (overlap_found_in
              (text_area_at label_x label_y_start line_width
                            total_text_height) used_areas);
    destruct (label_y_start >? y_min); simpl;
    try destruct (overlap_found_in _ used_areas);
    intros Heq; inversion Heq; subst; auto.
Qed.

(** No collision at the first candidate: it is accepted where it is. *)
Lemma avoid_overlap_free
    (y_min x_max frame_width line_width line_height total_text_height : Z)
    (label_x label_y_start : Z) (used_areas : list Rect.t) :
  overlap_found_in
    (text_area_at label_x label_y_start line_width total_text_height)
    used_areas = false ->
  avoid_overlap y_min x_max frame_width line_width line_height
                total_text_height label_x label_y_start used_areas
  = (label_x, label_y_start,
     text_area_at label_x label_y_start line_width total_text_height).
Proof.
  intros Hfree. unfold avoid_overlap. rewrite Hfree. reflexivity.
Qed.

(** A candidate above the box ([label_y_start = y_min - 10]) fails the
    guard [label_y_start > y_min] of line 127: on a collision the code goes
    straight to the shift to the right. *)
Lemma avoid_overlap_above
    (y_min x_max frame_width line_width line_height total_text_height : Z)
    (label_x : Z) (used_areas : list Rect.t) :
  avoid_overlap y_min x_max frame_width line_width line_height
                total_text_height label_x (y_min - 10) used_areas
  = let label_x' :=
      if overlap_found_in
           (text_area_at label_x (y_min - 10) line_width total_text_height)
           used_areas
      then Z.min (frame_width - line_width - 15) (x_max + 10)
      else label_x in
    (label_x', y_min - 10,
     text_area_at label_x' (y_min - 10) line_width total_text_height).
Proof.
  unfold avoid_overlap.
  assert (Hguard : (y_min - 10 >? y_min) = false)
    by (rewrite Z.gtb_ltb; apply Z.ltb_ge; lia).
  rewrite Hguard, andb_false_r.
  destruct (overlap_found_in _ used_areas); reflexivity.
Qed.

(** What a call that draws has computed. *)
Lemma draw_wrapped_text_inv
    (frame_height frame_width_actual : Z) (text : str)
    (x_min y_min x_max frame_width : Z) (used_areas : option (list Rect.t))
    (plan : DrawPlan) :
  draw_ (frame_height, frame_width_actual) text x_min y_min x_max frame_width
        used_areas = Some plan ->
  exists first_line more_lines,
    wrap_lines getTextSize (wrap_width_of x_min x_max) text
    = first_line :: more_lines /\
    dp_lines plan = first_line :: more_lines /\
    dp_line_width plan = fst (getTextSize first_line) /\
    dp_line_height plan = snd (getTextSize first_line) /\
    dp_total_text_height plan
    = Z.of_nat (length (first_line :: more_lines))
      * (dp_line_height plan + TEXT_LINE_SPACING cfg) /\
    match used_areas with
    | Some areas =>
        exists area,
          avoid_overlap y_min x_max frame_width (dp_line_width plan)
            (dp_line_height plan) (dp_total_text_height plan)
            (horizontal_rule x_min (dp_line_width plan) frame_width)
            (vertical_rule y_min (dp_line_height plan)
                           (dp_total_text_height plan)) areas
          = (dp_label_x plan, dp_label_y_start plan, area) /\
          dp_text_area plan = Some area /\
          dp_used_areas plan = Some (areas ++ [area])
    | None =>
        dp_label_x plan = horizontal_rule x_min (dp_line_width plan) frame_width /\
        dp_label_y_start plan
        = vertical_rule y_min (dp_line_height plan) (dp_total_text_height plan) /\
        dp_text_area plan = None /\ dp_used_areas plan = None
    end /\
    dp_background plan
    = {| Rect.x_min := Z.max 0 (dp_label_x plan - 15);
         Rect.y_min :=
           if dp_label_y_start plan >? y_min
           then Z.max 0 (y_min + 5)
           else Z.max 0 (y_min - dp_total_text_height plan - 15);
         Rect.x_max :=
           Z.min frame_width
                 (dp_label_x plan
                  + max_width_of (first_line :: more_lines) + 15);
         Rect.y_max :=
           if dp_label_y_start plan >? y_min
           then Z.min frame_height (y_min + dp_total_text_height plan + 15)
           else Z.min frame_height (y_min - 5) |}.
Proof.
  unfold _draw_wrapped_text.
  destruct (wrap_lines getTextSize (wrap_width_of x_min x_max) text)
    as [|first_line more_lines]; [discriminate|].
  destruct (getTextSize first_line) as [line_width line_height] eqn:Hsize.
  set (total := Z.of_nat (length (first_line :: more_lines))
                * (line_height + TEXT_LINE_SPACING cfg)).
  destruct used_areas as [areas|].
  - destruct (avoid_overlap y_min x_max frame_width line_width line_height
                total (horizontal_rule x_min line_width frame_width)
                (vertical_rule y_min line_height total) areas)
      as [[label_x label_y_start] area] eqn:Havoid.
    destruct (label_y_start >? y_min) eqn:Hside;
      intros Heq; inversion Heq; subst plan; clear Heq;
      cbn [dp_lines dp_line_width dp_line_height dp_total_text_height
           dp_label_x dp_label_y_start dp_text_area dp_used_areas
           dp_background];
      exists first_line, more_lines; rewrite Hsize, ?Hside; cbn [fst snd];
      repeat (split; [reflexivity|]);
      (split; [exists area; split; [exact Havoid|split; reflexivity]
              | simpl fold_left; rewrite ?Hsize; reflexivity]).
  - destruct (vertical_rule y_min line_height total >? y_min) eqn:Hside;
      intros Heq; inversion Heq; subst plan; clear Heq;
      cbn [dp_lines dp_line_width dp_line_height dp_total_text_height
           dp_label_x dp_label_y_start dp_text_area dp_used_areas
           dp_background];
      exists first_line, more_lines; rewrite Hsize, ?Hside; cbn [fst snd];
      repeat (split; [reflexivity|]);
      (split; [repeat split; reflexivity
              | simpl fold_left; rewrite ?Hsize; reflexivity]).
Qed.

(** C5, as the code has it.  The footprint recorded for a placed label is
    its text rectangle (first line's width, total text height) at the
    accepted position, grown by 15 pixels to the left and to the right and
    by 5 pixels above and below; the first candidate, at the position the
    vertical and horizontal rules give, is accepted as it is exactly when
    its area so grown overlaps no recorded footprint. *)
Theorem footprint_margin_is_15_by_5
    (frame_height frame_width_actual : Z) (text : str)
    (x_min y_min x_max frame_width : Z) (areas : list Rect.t)
    (plan : DrawPlan) :
  draw_ (frame_height, frame_width_actual) text x_min y_min x_max frame_width
        (Some areas) = Some plan ->
  let line_width := dp_line_width plan in
  let total := dp_total_text_height plan in
  let first_x := horizontal_rule x_min line_width frame_width in
  let first_y := vertical_rule y_min (dp_line_height plan) total in
  let recorded :=
    {| Rect.x_min := dp_label_x plan - 15;
       Rect.y_min := dp_label_y_start plan - 5;
       Rect.x_max := dp_label_x plan + line_width + 15;
       Rect.y_max := dp_label_y_start plan + total + 5 |} in
  dp_text_area plan = Some recorded /\
  dp_used_areas plan = Some (areas ++ [recorded]) /\
  (overlap_found_in (text_area_at first_x first_y line_width total) areas
   = false ->
   dp_label_x plan = first_x /\ dp_label_y_start plan = first_y).
Proof.
  intros Hdraw line_width total first_x first_y recorded.
  destruct (draw_wrapped_text_inv _ _ _ _ _ _ _ _ _ Hdraw)
    as (first_line & more_lines & _ & _ & _ & _ & _ & Hareas & _).
  destruct Hareas as (area & Havoid & Harea & Hused).
  pose proof (avoid_overlap_area _ _ _ _ _ _ _ _ _ _ _ _ Havoid) as Hshape.
  unfold text_area_at in Hshape. fold line_width total in Hshape.
  fold recorded in Hshape. subst area.
  split; [exact Harea|]. split; [exact Hused|].
  intros Hfree.
  rewrite (avoid_overlap_free _ _ _ _ _ _ _ _ _ Hfree) in Havoid.
  inversion Havoid. split; reflexivity.
Qed.

(** C1, what the code does instead.  When the vertical rule chose the
    position above the box, the label stays above it whatever the recorded
    footprints are: the retry below is never taken, and a collision of the
    first candidate leads straight to the shift to the right. *)
Theorem above_choice_is_never_retried_below
    (frame_height frame_width_actual : Z) (text : str)
    (x_min y_min x_max frame_width : Z) (areas : list Rect.t)
    (plan : DrawPlan) :
  draw_ (frame_height, frame_width_actual) text x_min y_min x_max frame_width
        (Some areas) = Some plan ->
  above_has_room y_min (dp_total_text_height plan) = true ->
  let line_width := dp_line_width plan in
  let total := dp_total_text_height plan in
  let candidate :=
    text_area_at (horizontal_rule x_min line_width frame_width) (y_min - 10)
                 line_width total in
  dp_label_y_start plan = y_min - 10 /\
  (0 <= dp_line_height plan ->
   dp_label_y_start plan <> y_min + 10 + dp_line_height plan) /\
  (overlap_found_in candidate areas = true ->
   dp_label_x plan = Z.min (frame_width - line_width - 15) (x_max + 10) /\
   dp_text_area plan
   = Some (text_area_at (Z.min (frame_width - line_width - 15) (x_max + 10))
                        (y_min - 10) line_width total)).
Proof.
  intros Hdraw Habove line_width total candidate.
  destruct (draw_wrapped_text_inv _ _ _ _ _ _ _ _ _ Hdraw)
    as (first_line & more_lines & _ & _ & _ & _ & _ & Hareas & _).
  destruct Hareas as (area & Havoid & Harea & _).
  unfold vertical_rule in Havoid. rewrite Habove in Havoid.
  rewrite avoid_overlap_above in Havoid. cbv zeta in Havoid.
  fold line_width total candidate in Havoid.
  inversion Havoid as [[Hx Hy Ha]]. clear Havoid.
  split; [reflexivity|]. split; [intros Hh; lia|].
  intros Hcollides. rewrite Hcollides in *. rewrite Harea, <- Ha.
  split; reflexivity.
Qed.

(** C3, as the code has it.  What is clamped to the canvas is the filled
    background rectangle: its left and top edges are never negative, its
    right and bottom edges never beyond the canvas width and height.  The
    recorded footprint is not clamped; only its right edge is bounded, by
    the canvas width plus the 15-pixel margin. *)
Theorem background_is_clamped_footprint_is_not
    (frame_height frame_width_actual : Z) (text : str)
    (x_min y_min x_max frame_width : Z) (used_areas : option (list Rect.t))
    (plan : DrawPlan) :
  draw_ (frame_height, frame_width_actual) text x_min y_min x_max frame_width
        used_areas = Some plan ->
  0 <= Rect.x_min (dp_background plan) /\
  0 <= Rect.y_min (dp_background plan) /\
  Rect.x_max (dp_background plan) <= frame_width /\
  Rect.y_max (dp_background plan) <= frame_height /\
  (forall area, dp_text_area plan = Some area ->
                Rect.x_max area <= frame_width + 15).
Proof.
  intros Hdraw.
  destruct (draw_wrapped_text_inv _ _ _ _ _ _ _ _ _ Hdraw)
    as (first_line & more_lines & _ & _ & _ & _ & _ & Hareas & Hbg).
  rewrite Hbg. cbn [Rect.x_min Rect.y_min Rect.x_max Rect.y_max].
  split; [lia|]. split; [destruct (_ >? _); lia|].
  split; [lia|]. split; [destruct (_ >? _); lia|].
  intros area Harea. destruct used_areas as [areas|].
  - destruct Hareas as (area' & Havoid & Harea' & _).
    rewrite Harea in Harea'. inversion Harea'; subst area'. clear Harea'.
    rewrite (avoid_overlap_area _ _ _ _ _ _ _ _ _ _ _ _ Havoid).
    apply avoid_overlap_abscissa in Havoid.
    unfold horizontal_rule in Havoid. cbn [text_area_at Rect.x_max].
    destruct (x_min + dp_line_width plan >? frame_width) eqn:Hfit;
      [|rewrite Z.gtb_ltb in Hfit; apply Z.ltb_ge in Hfit]; lia.
  - destruct Hareas as (_ & _ & Hnone & _). congruence.
Qed.

End Placement.

Lemma footprint_margin_is_15_by_5_witness :
  exists plan,
    _draw_wrapped_text settings fixed_pitch frame_720p (py "a person")
                       256 216 768 1280 (Some []) = Some plan /\
    dp_label_x plan = 256 /\ dp_label_y_start plan = 206 /\
    dp_text_area plan = Some (Rect.mk (256 - 15) (206 - 5)
                                      (256 + 96 + 15) (206 + 21 + 5)).
Proof.
  destruct (_draw_wrapped_text settings fixed_pitch frame_720p (py "a person")
                               256 216 768 1280 (Some []))
    as [plan|] eqn:Hdraw; [|vm_compute in Hdraw; discriminate].
  exists plan. split; [reflexivity|].
  pose proof (footprint_margin_is_15_by_5
                settings fixed_pitch 720 1280 (py "a person")
                256 216 768 1280 [] plan Hdraw) as Hthm.
  vm_compute in Hdraw. inversion Hdraw as [Hplan]. subst plan.
  destruct Hthm as (Harea & _ & Hfirst).
  destruct (Hfirst eq_refl) as [Hx Hy].
  split; [exact Hx|]. split; [exact Hy|]. exact Harea.
Defined.

(** C5 as stated fails: above and below, the margin of the recorded
    footprint is 5 pixels, not 15. *)
Lemma footprint_is_not_15_on_all_sides :
  exists plan area,
    _draw_wrapped_text settings fixed_pitch frame_720p (py "a person")
                       256 216 768 1280 (Some []) = Some plan /\
    dp_text_area plan = Some area /\
    dp_used_areas plan = Some [area] /\
    area = Rect.mk 241 201 367 232 /\
    expanded_all_sides 15 (dp_label_x plan) (dp_label_y_start plan)
                       (dp_line_width plan) (dp_total_text_height plan)
    = Rect.mk 241 191 367 242 /\
    area <> expanded_all_sides 15 (dp_label_x plan) (dp_label_y_start plan)
                               (dp_line_width plan)
                               (dp_total_text_height plan).
Proof.
  eexists. eexists.
  split; [vm_compute; reflexivity|].
  split; [reflexivity|]. split; [reflexivity|]. split; [reflexivity|].
  split; [reflexivity|]. discriminate.
Qed.

Lemma above_choice_is_never_retried_below_witness :
  let areas := [Rect.mk 0 60 200 90] in
  exists plan,
    _draw_wrapped_text settings fixed_pitch frame_720p (py "test")
                       50 100 150 1280 (Some areas) = Some plan /\
    dp_label_y_start plan = 100 - 10 /\
    dp_label_x plan = Z.min (1280 - 48 - 15) (150 + 10) /\
    dp_text_area plan = Some (Rect.mk 145 85 223 116) /\
    overlap_found_in (text_area_at 50 (100 + 10 + 16) 48 21) areas = false.
Proof.
  intros areas.
  destruct (_draw_wrapped_text settings fixed_pitch frame_720p (py "test")
                               50 100 150 1280 (Some areas))
    as [plan|] eqn:Hdraw; [|vm_compute in Hdraw; discriminate].
  exists plan. split; [reflexivity|].
  pose proof (above_choice_is_never_retried_below
                settings fixed_pitch 720 1280 (py "test")
                50 100 150 1280 areas plan Hdraw) as Hthm.
  vm_compute in Hdraw. inversion Hdraw as [Hplan]. subst plan.
  destruct (Hthm eq_refl) as (Hy & _ & Hshift).
  destruct (Hshift eq_refl) as [Hx Harea].
  split; [exact Hy|]. split; [exact Hx|]. split; [exact Harea|].
  reflexivity.
Defined.

Lemma background_is_clamped_footprint_is_not_witness :
  exists plan,
    _draw_wrapped_text settings fixed_pitch frame_720p (py "a")
                       0 0 100 1280 (Some []) = Some plan /\
    0 <= Rect.x_min (dp_background plan) /\
    0 <= Rect.y_min (dp_background plan) /\
    Rect.x_max (dp_background plan) <= 1280 /\
    Rect.y_max (dp_background plan) <= 720 /\
    (forall area, dp_text_area plan = Some area -> Rect.x_max area <= 1280 + 15).
Proof.
  destruct (_draw_wrapped_text settings fixed_pitch frame_720p (py "a")
                               0 0 100 1280 (Some []))
    as [plan|] eqn:Hdraw; [|vm_compute in Hdraw; discriminate].
  exists plan. split; [reflexivity|].
  exact (background_is_clamped_footprint_is_not
           settings fixed_pitch 720 1280 (py "a") 0 0 100 1280 (Some [])
           plan Hdraw).
Defined.

(** C3 as stated fails: for an anchor at the canvas corner the recorded
    footprint starts 15 pixels left of the canvas. *)
Lemma footprint_at_canvas_corner_is_negative :
  exists plan area,
    _draw_wrapped_text settings fixed_pitch frame_720p (py "a")
                       0 0 100 1280 (Some []) = Some plan /\
    dp_text_area plan = Some area /\
    dp_used_areas plan = Some [area] /\
    Rect.x_min area = -15 /\
    ~ within_canvas 1280 720 area.
Proof.
  eexists. eexists.
  split; [vm_compute; reflexivity|].
  split; [reflexivity|]. split; [reflexivity|]. split; [reflexivity|].
  unfold within_canvas. simpl. lia.
Qed.

(* ================================================================== *)
(** * Strings: strip, split and join *)
(* ================================================================== *)

Lemma lstrip_nonspace (c : char) (s : str) :
  is_space c = false -> lstrip (c :: s) = c :: s.
Proof. intros Hc. simpl. now rewrite Hc. Qed.

Lemma rstrip_snoc_nonspace (s : str) (c : char) :
  is_space c = false -> rstrip (s ++ [c]) = s ++ [c].
Proof.
  intros Hc. unfold rstrip. rewrite rev_app_distr. simpl. rewrite Hc.
  simpl. now rewrite rev_involutive.
Qed.

Lemma rstrip_snoc_space (s : str) (c : char) :
  is_space c = true -> rstrip (s ++ [c]) = rstrip s.
Proof.
  intros Hc. unfold rstrip. rewrite rev_app_distr. simpl. now rewrite Hc.
Qed.

Lemma strip_trimmed (s : str) :
  starts_nonspace s -> ends_nonspace s -> strip s = s.
Proof.
  intros (c & s1 & Hs1 & Hc) (s2 & d & Hs2 & Hd). unfold strip.
  rewrite Hs1, (lstrip_nonspace c s1 Hc), <- Hs1, Hs2.
  now apply rstrip_snoc_nonspace.
Qed.

Lemma starts_nonspace_app (a b : str) :
  starts_nonspace a -> starts_nonspace (a ++ b).
Proof.
  intros (c & s' & -> & Hc). exists c, (s' ++ b). now split.
Qed.

Lemma ends_nonspace_app (a b : str) :
  ends_nonspace b -> ends_nonspace (a ++ b).
Proof.
  intros (s' & c & -> & Hc). exists (a ++ s'), c.
  split; [now rewrite app_assoc | exact Hc].
Qed.

Lemma proper_word_trimmed (w : str) :
  proper_word w -> starts_nonspace w /\ ends_nonspace w.
Proof.
  intros [Hne Hclean]. split.
  - destruct w as [|c w']; [contradiction|].
    exists c, w'. split; [reflexivity|]. apply Hclean. now left.
  - destruct (exists_last Hne) as (w' & c & ->).
    exists w', c. split; [reflexivity|].
    apply Hclean. apply in_or_app. right. now left.
Qed.

Lemma join_space_cons (w : str) (g : list str) :
  g <> [] -> join_space (w :: g) = w ++ SPACE :: join_space g.
Proof. destruct g; [contradiction | reflexivity]. Qed.

Lemma join_space_app (a b : list str) :
  a <> [] -> b <> [] ->
  join_space (a ++ b) = join_space a ++ SPACE :: join_space b.
Proof.
  intros Ha Hb. induction a as [|w a IH]; [contradiction|].
  destruct a as [|w' a].
  - simpl app. now rewrite join_space_cons.
  - rewrite <- app_comm_cons, !join_space_cons by discriminate.
    rewrite IH by discriminate. now rewrite <- app_assoc.
Qed.

Lemma join_space_snoc (g : list str) (w : str) :
  g <> [] -> join_space (g ++ [w]) = join_space g ++ SPACE :: w.
Proof. intros Hg. now rewrite join_space_app by (assumption || discriminate). Qed.

(** A line made of proper words has no whitespace at either end. *)
Lemma join_space_trimmed (g : list str) :
  g <> [] -> Forall proper_word g ->
  starts_nonspace (join_space g) /\ ends_nonspace (join_space g).
Proof.
  intros Hne Hg. induction g as [|w g IH]; [contradiction|].
  inversion Hg as [|? ? Hw Hg']; subst.
  destruct (proper_word_trimmed w Hw) as [Hstart Hend].
  destruct g as [|w' g]; [now split|].
  rewrite join_space_cons by discriminate.
  destruct (IH ltac:(discriminate) Hg') as [_ Hend'].
  split.
  - now apply starts_nonspace_app.
  - apply ends_nonspace_app.
    destruct Hend' as (s' & c & -> & Hc).
    exists (SPACE :: s'), c. now split.
Qed.

Lemma truthy_join_space (g : list str) :
  Forall proper_word g ->
  truthy (join_space g) = match g with [] => false | _ :: _ => true end.
Proof.
  intros Hg. destruct g as [|w g]; [reflexivity|].
  destruct (join_space_trimmed (w :: g) ltac:(discriminate) Hg)
    as [(c & s' & -> & _) _].
  reflexivity.
Qed.

Lemma truthy_true (s : str) : truthy s = true <-> s <> [].
Proof. destruct s; simpl; split; congruence. Qed.

Lemma is_space_SPACE : is_space SPACE = true.
Proof. reflexivity. Qed.

(** What [strip] makes of the test line of the wrapping loop. *)
Lemma strip_test_line (current : list str) (w : str) :
  Forall proper_word current -> clean w ->
  strip (join_space current ++ SPACE :: w)
  = join_space (if truthy w then current ++ [w] else current).
Proof.
  intros Hcurrent Hw.
  destruct current as [|w0 g]; destruct w as [|c w'].
  - reflexivity.
  - assert (Hproper : proper_word (c :: w')) by (split; [discriminate|exact Hw]).
    destruct (proper_word_trimmed _ Hproper) as [Hstart Hend].
    change (strip (join_space [] ++ SPACE :: c :: w'))
      with (strip (c :: w')).
    now apply strip_trimmed.
  - simpl truthy. cbv iota.
    destruct (join_space_trimmed (w0 :: g) ltac:(discriminate) Hcurrent)
      as [Hstart Hend].
    unfold strip.
    destruct Hstart as (c & s' & Hs' & Hc). rewrite Hs'.
    rewrite <- app_comm_cons, lstrip_nonspace by exact Hc.
    rewrite app_comm_cons, <- Hs'.
    rewrite rstrip_snoc_space by apply is_space_SPACE.
    destruct Hend as (s'' & d & -> & Hd). now apply rstrip_snoc_nonspace.
  - simpl truthy. cbv iota.
    rewrite <- join_space_snoc by discriminate.
    assert (Hall : Forall proper_word ((w0 :: g) ++ [c :: w'])).
    { apply Forall_app. split; [exact Hcurrent|].
      constructor; [|constructor]. split; [discriminate|exact Hw]. }
    destruct (join_space_trimmed ((w0 :: g) ++ [c :: w'])
                ltac:(simpl; discriminate) Hall) as [Hstart Hend].
    now apply strip_trimmed.
Qed.

(** The pieces of a split hold no separator and only characters of the
    text. *)
Lemma split_on_pieces (sep : char -> bool) (s : str) :
  forall w, In w (split_on sep s) ->
            forall c, In c w -> In c s /\ sep c = false.
Proof.
  induction s as [|c0 s IH]; intros w Hw c Hc; simpl in Hw.
  - destruct Hw as [<-|[]]. destruct Hc.
  - destruct (sep c0) eqn:Hsep.
    + destruct Hw as [<-|Hw]; [destruct Hc|].
      destruct (IH w Hw c Hc) as [Hin Hno]. split; [now right|exact Hno].
    + destruct (split_on sep s) as [|w0 ws] eqn:Hsplit.
      * destruct Hw as [<-|[]]. destruct Hc as [<-|[]]. split; [now left|exact Hsep].
      * destruct Hw as [<-|Hw].
        -- destruct Hc as [<-|Hc]; [split; [now left|exact Hsep]|].
           destruct (IH w0 (or_introl eq_refl) c Hc) as [Hin Hno].
           split; [now right|exact Hno].
        -- destruct (IH w (or_intror Hw) c Hc) as [Hin Hno].
           split; [now right|exact Hno].
Qed.

Lemma split_space_clean (text : str) :
  only_space_ws text -> Forall clean (split_space text).
Proof.
  intros Honly. apply Forall_forall. intros w Hw c Hc.
  destruct (split_on_pieces (N.eqb SPACE) text w Hw c Hc) as [Hin Hsep].
  destruct (is_space c) eqn:Hspace; [|reflexivity].
  rewrite (Honly c Hin Hspace) in Hsep. discriminate.
Qed.

Lemma words_proper (text : str) :
  only_space_ws text -> Forall proper_word (words text).
Proof.
  intros Honly. unfold words. apply Forall_forall. intros w Hw.
  apply filter_In in Hw. destruct Hw as [Hw Hne].
  split; [now apply truthy_true|].
  pose proof (split_space_clean text Honly) as Hclean.
  rewrite Forall_forall in Hclean. now apply Hclean.
Qed.

(** On a text whose whitespace is spaces only, splitting on the space and
    splitting on whitespace agree. *)
Lemma split_whitespace_words (text : str) :
  only_space_ws text -> split_whitespace text = words text.
Proof.
  intros Honly. unfold split_whitespace, words, split_space. f_equal.
  induction text as [|c text IH]; [reflexivity|].
  assert (Hc : is_space c = N.eqb SPACE c).
  { destruct (is_space c) eqn:Hspace.
    - rewrite (Honly c (or_introl eq_refl) Hspace). reflexivity.
    - symmetry. apply N.eqb_neq. intros <-. discriminate. }
  simpl. rewrite Hc, IH; [reflexivity|].
  intros c' Hin. apply Honly. now right.
Qed.

Section Wrapping.

Variable getTextSize : str -> Z * Z.
Variable wrap_width : Z.

Local Notation "'width' s" := (fst (getTextSize s)) (at level 10).
Local Notation "'step_'" := (wrap_step getTextSize wrap_width).
Local Notation "'pack_'" := (pack_words getTextSize wrap_width).

(** The wrapping loop, from any point on, does to characters what
    [pack_words] does to words. *)
Lemma wrap_fold_pack (ws : list str) :
  Forall clean ws ->
  forall (lines : list str) (current : list str),
    Forall proper_word current ->
    (let '(lines', current_line) :=
       fold_left step_ ws (lines, join_space current) in
     if truthy current_line then lines' ++ [current_line] else lines')
    = lines ++ map join_space (pack_ current ws).
Proof.
  induction ws as [|w ws IH]; intros Hws lines current Hcurrent.
  - simpl. rewrite truthy_join_space by assumption.
    destruct current; [now rewrite app_nil_r | reflexivity].
  - inversion Hws as [|? ? Hw Hws']; subst.
    cbn [fold_left pack_words]. unfold wrap_step at 2.
    rewrite strip_test_line by assumption.
    rewrite truthy_join_space by assumption.
    set (test := if truthy w then current ++ [w] else current).
    assert (Htest : Forall proper_word test).
    { subst test. destruct (truthy w) eqn:Hne; [|assumption].
      apply Forall_app. split; [assumption|].
      constructor; [|constructor]. split; [now apply truthy_true|assumption]. }
    destruct (getTextSize (join_space test)) as [text_width text_height].
    cbn [fst].
    destruct ((text_width >? wrap_width)
              && match current with [] => false | _ :: _ => true end).
    + assert (Hnext : w = join_space (if truthy w then [w] else [])).
      { destruct w; reflexivity. }
      rewrite Hnext at 1.
      rewrite IH; [|assumption|].
      * cbn [map]. now rewrite <- app_assoc.
      * destruct (truthy w) eqn:Hne; [|constructor].
        constructor; [|constructor]. split; [now apply truthy_true|assumption].
    + now apply IH.
Qed.

(** Refinement: the lines are the groups of [pack_words], each joined by
    single spaces. *)
Lemma wrap_lines_pack (text : str) :
  only_space_ws text ->
  wrap_lines getTextSize wrap_width text
  = map join_space (pack_ [] (split_space text)).
Proof.
  intros Honly. unfold wrap_lines.
  exact (wrap_fold_pack (split_space text) (split_space_clean text Honly)
                        [] [] (Forall_nil _)).
Qed.

Lemma pack_words_concat (ws : list str) :
  forall current, concat (pack_ current ws) = current ++ filter truthy ws.
Proof.
  induction ws as [|w ws IH]; intros current; cbn [pack_words filter].
  - destruct current; [reflexivity|]. simpl. now rewrite !app_nil_r.
  - destruct (_ && _).
    + cbn [concat]. rewrite IH. destruct (truthy w); reflexivity.
    + rewrite IH. destruct (truthy w); [|reflexivity].
      now rewrite <- app_assoc.
Qed.

Lemma pack_words_nonempty (ws : list str) :
  forall current, Forall (fun g => g <> []) (pack_ current ws).
Proof.
  induction ws as [|w ws IH]; intros current; cbn [pack_words].
  - destruct current; constructor; [discriminate|constructor].
  - destruct current as [|w0 g].
    + rewrite andb_false_r. apply IH.
    + destruct (_ && _); [|apply IH].
      constructor; [discriminate|apply IH].
Qed.

(** A line of two words or more fits the wrap width. *)
Lemma pack_words_fit (ws : list str) :
  forall current,
    ((2 <= length current)%nat -> width (join_space current) <= wrap_width) ->
    forall g, In g (pack_ current ws) ->
              (2 <= length g)%nat -> width (join_space g) <= wrap_width.
Proof.
  induction ws as [|w ws IH]; intros current Hcurrent g Hg Hlen;
    cbn [pack_words] in Hg.
  - destruct current; [destruct Hg|]. destruct Hg as [<-|[]]. now apply Hcurrent.
  - set (test := if truthy w then current ++ [w] else current) in *.
    destruct (width (join_space test) >? wrap_width) eqn:Hwide;
      cbn [andb] in Hg.
    + destruct current as [|w0 g0].
      * apply (IH test); [|assumption|assumption].
        subst test. destruct (truthy w); simpl; lia.
      * destruct Hg as [<-|Hg]; [now apply Hcurrent|].
        apply (IH (if truthy w then [w] else [])); [|assumption|assumption].
        destruct (truthy w); simpl; lia.
    + apply (IH test); [|assumption|assumption].
      intros _. rewrite Z.gtb_ltb in Hwide. now apply Z.ltb_ge.
Qed.

Hypothesis monotone : metric_monotone getTextSize.

Lemma width_prefix (a b : list str) :
  width (join_space a) <= width (join_space (a ++ b)).
Proof.
  destruct a as [|w a]; [exact (monotone [] [] (join_space b))|].
  destruct b as [|w' b]; [rewrite app_nil_r; lia|].
  rewrite join_space_app by discriminate.
  exact (monotone [] (join_space (w :: a)) (SPACE :: join_space (w' :: b))).
Qed.

Lemma width_word_in_line (g : list str) (w : str) :
  In w g -> width w <= width (join_space g).
Proof.
  intros Hin. apply in_split in Hin. destruct Hin as (a & b & ->).
  assert (Hsub : exists l r, join_space (a ++ w :: b) = l ++ w ++ r).
  { destruct a as [|w0 a]; destruct b as [|w1 b].
    - exists [], []. simpl. now rewrite app_nil_r.
    - exists [], (SPACE :: join_space (w1 :: b)). reflexivity.
    - exists (join_space (w0 :: a) ++ [SPACE]), [].
      rewrite join_space_app by discriminate.
      simpl join_space at 2. now rewrite app_nil_r, <- app_assoc.
    - exists (join_space (w0 :: a) ++ [SPACE]), (SPACE :: join_space (w1 :: b)).
      rewrite join_space_app by discriminate.
      rewrite (join_space_cons w (w1 :: b)) by discriminate.
      now rewrite <- app_assoc. }
  destruct Hsub as (l & r & ->). apply monotone.
Qed.

(** A word wider than the wrap width has its line for itself. *)
Lemma pack_words_overlong (ws : list str) :
  forall current,
    (forall w, In w current -> wrap_width < width w -> current = [w]) ->
    forall g w, In g (pack_ current ws) -> In w g ->
                wrap_width < width w -> g = [w].
Proof.
  induction ws as [|w0 ws IH]; intros current Hcurrent g w Hg Hw Hwide;
    cbn [pack_words] in Hg.
  - destruct current; [destruct Hg|]. destruct Hg as [<-|[]].
    now apply Hcurrent.
  - set (test := if truthy w0 then current ++ [w0] else current) in *.
    assert (Hsingle : forall w', In w' (if truthy w0 then [w0] else []) ->
                                 wrap_width < width w' ->
                                 (if truthy w0 then [w0] else []) = [w']).
    { destruct (truthy w0); intros w' Hin _; [|destruct Hin].
      destruct Hin as [<-|[]]. reflexivity. }
    destruct (width (join_space test) >? wrap_width) eqn:Htest;
      cbn [andb] in Hg.
    + destruct current as [|w1 g1].
      * apply (IH test); try assumption; subst test; simpl; exact Hsingle.
      * destruct Hg as [<-|Hg]; [now apply Hcurrent|].
        now apply (IH (if truthy w0 then [w0] else [])).
    + apply (IH test); try assumption.
      intros w' Hin Hwide'. exfalso.
      pose proof (width_word_in_line test w' Hin) as Hle.
      rewrite Z.gtb_ltb in Htest. apply Z.ltb_ge in Htest. lia.
Qed.

Lemma pack_words_head (ws : list str) :
  forall w0 current g gs,
    pack_ (w0 :: current) ws = g :: gs -> exists rest, g = w0 :: rest.
Proof.
  induction ws as [|w ws IH]; intros w0 current g gs Hpack;
    cbn [pack_words] in Hpack.
  - inversion Hpack. now exists current.
  - destruct (_ && _).
    + inversion Hpack. now exists current.
    + destruct (truthy w); [|now apply (IH w0 current g gs)].
      exact (IH w0 (current ++ [w]) g gs Hpack).
Qed.

(** Greedy: a line is closed only when the first word of the next one
    would not fit on it. *)
Lemma pack_words_greedy (ws : list str) :
  forall current before g1 g2 after,
    pack_ current ws = before ++ g1 :: g2 :: after ->
    exists w rest,
      g2 = w :: rest /\ wrap_width < width (join_space (g1 ++ [w])).
Proof.
  induction ws as [|w0 ws IH]; intros current before g1 g2 after Hpack;
    cbn [pack_words] in Hpack.
  - destruct current; destruct before as [|? [|? ?]]; discriminate.
  - set (test := if truthy w0 then current ++ [w0] else current) in *.
    destruct (width (join_space test) >? wrap_width) eqn:Htest;
      cbn [andb] in Hpack; [|now apply (IH test before g1 g2 after)].
    destruct current as [|w1 c1]; [now apply (IH test before g1 g2 after)|].
    rewrite Z.gtb_ltb in Htest. apply Z.ltb_lt in Htest.
    destruct before as [|b before].
    + simpl in Hpack. inversion Hpack as [[Hg1 Hrest]]. clear Hpack.
      destruct (truthy w0) eqn:Hw0.
      * destruct (pack_words_head ws w0 [] g2 after Hrest) as [rest ->].
        exists w0, rest. split; [reflexivity|exact Htest].
      * pose proof (pack_words_nonempty ws []) as Hne.
        rewrite Hrest in Hne. inversion Hne as [|? ? Hg2 _]; subst.
        destruct g2 as [|w rest]; [contradiction|].
        exists w, rest. split; [reflexivity|].
        pose proof (width_prefix (w1 :: c1) [w]). subst test. lia.
    + simpl in Hpack. inversion Hpack as [[Hb Hrest]].
      exact (IH _ before g1 g2 after Hrest).
Qed.

(** Words that fit on one line together make one line. *)
Lemma pack_words_one_line (ws : list str) :
  forall current,
    current ++ filter truthy ws <> [] ->
    width (join_space (current ++ filter truthy ws)) <= wrap_width ->
    pack_ current ws = [current ++ filter truthy ws].
Proof.
  induction ws as [|w0 ws IH]; intros current Hne Hfits;
    cbn [pack_words filter] in *.
  - rewrite app_nil_r in *. destruct current; [contradiction|reflexivity].
  - set (test := if truthy w0 then current ++ [w0] else current).
    assert (Hwhole : (current ++ if truthy w0 then w0 :: filter truthy ws
                                 else filter truthy ws)
                     = test ++ filter truthy ws).
    { subst test. destruct (truthy w0); [|reflexivity].
      now rewrite <- app_assoc. }
    rewrite Hwhole in *.
    pose proof (width_prefix test (filter truthy ws)) as Hprefix.
    assert (Htest : (width (join_space test) >? wrap_width) = false)
      by (rewrite Z.gtb_ltb; apply Z.ltb_ge; lia).
    rewrite Htest. cbn [andb]. now apply IH.
Qed.

End Wrapping.

Lemma only_space_wsb_spec (text : str) :
  only_space_wsb text = true -> only_space_ws text.
Proof.
  unfold only_space_wsb. rewrite forallb_forall. intros Hall c Hin Hspace.
  specialize (Hall c Hin). rewrite Hspace in Hall. simpl in Hall.
  now apply N.eqb_eq.
Qed.

Lemma fixed_pitch_monotone : metric_monotone fixed_pitch.
Proof.
  intros a b c. unfold fixed_pitch. cbn [fst]. rewrite !length_app. lia.
Qed.

Lemma join_space_concat (groups : list (list str)) :
  Forall (fun g => g <> []) groups ->
  join_space (map join_space groups) = join_space (concat groups).
Proof.
  induction groups as [|g groups IH]; intros Hne; [reflexivity|].
  inversion Hne as [|? ? Hg Hgroups]; subst.
  destruct groups as [|g' groups].
  - simpl. now rewrite app_nil_r.
  - cbn [map concat]. rewrite join_space_cons by discriminate.
    cbn [map concat] in IH. rewrite IH by assumption.
    inversion Hgroups as [|? ? Hg' _]; subst.
    rewrite <- join_space_app; [reflexivity|assumption|].
    destruct g'; [contradiction|discriminate].
Qed.

Section WordWrap.

Variable getTextSize : str -> Z * Z.

Local Notation "'width' s" := (fst (getTextSize s)) (at level 10).

(** C7, as the code has it.  For a text whose only whitespace is the space
    character, the lines are the words of the text (the non-empty pieces
    between spaces), whole and in order, each line its words joined by
    single spaces; a line of two words or more is no wider than
    [wrap_width = max(300, x_max - x_min)]; with a text measure that never
    shrinks when characters are added, a word wider than [wrap_width] is
    alone on its line, a line is closed only when the next word would not
    fit on it, and a text with at least one word whose words fit on one
    line gives exactly that line; a text without any word gives no
    line. *)
Theorem wrap_packs_whole_words (text : str) (x_min x_max : Z) :
  only_space_ws text ->
  let wrap_width := wrap_width_of x_min x_max in
  let lines := wrap_lines getTextSize wrap_width text in
  wrap_width = Z.max 300 (x_max - x_min) /\
  exists groups : list (list str),
    lines = map join_space groups /\
    concat groups = words text /\
    Forall (fun g => g <> []) groups /\
    Forall proper_word (words text) /\
    (forall g, In g groups -> (2 <= length g)%nat ->
               width (join_space g) <= wrap_width) /\
    (metric_monotone getTextSize ->
     (forall g w, In g groups -> In w g -> wrap_width < width w -> g = [w]) /\
     (forall before g1 g2 after,
         groups = before ++ g1 :: g2 :: after ->
         exists w rest,
           g2 = w :: rest /\
           wrap_width < width (join_space (g1 ++ [w]))) /\
     (words text <> [] ->
      width (join_space (words text)) <= wrap_width ->
      lines = [join_space (words text)])) /\
    (words text = [] -> lines = []).
Proof.
  intros Honly wrap_width lines. split; [reflexivity|].
  exists (pack_words getTextSize wrap_width [] (split_space text)).
  assert (Hlines : lines = map join_space
                             (pack_words getTextSize wrap_width []
                                         (split_space text)))
    by (apply wrap_lines_pack; exact Honly).
  split; [exact Hlines|].
  split; [apply pack_words_concat|].
  split; [apply pack_words_nonempty|].
  split; [now apply words_proper|].
  split.
  { apply pack_words_fit. simpl. lia. }
  split.
  - intros Hmono. split; [|split].
    + apply pack_words_overlong; [exact Hmono|]. intros w [].
    + intros before g1 g2 after Hgroups.
      exact (pack_words_greedy getTextSize wrap_width Hmono _ _ _ _ _ _ Hgroups).
    + intros Hne Hfits. rewrite Hlines.
      rewrite (pack_words_one_line getTextSize wrap_width Hmono
                                   (split_space text) [] Hne Hfits).
      reflexivity.
  - intros Hnone. rewrite Hlines.
    pose proof (pack_words_concat getTextSize wrap_width (split_space text) [])
      as Hconcat.
    pose proof (pack_words_nonempty getTextSize wrap_width (split_space text) [])
      as Hne.
    fold (words text) in Hconcat. rewrite Hnone in Hconcat. simpl in Hconcat.
    destruct (pack_words getTextSize wrap_width [] (split_space text))
      as [|g groups]; [reflexivity|].
    inversion Hne as [|? ? Hg _]; subst.
    destruct g; [contradiction|discriminate].
Qed.

(** C10, as the code has it.  For a text whose only whitespace is the
    space character, whatever the text measure and the wrap width, the
    wrapped lines joined by single spaces are the words of the text joined
    by single spaces: no word is lost, repeated or moved. *)
Theorem wrapped_lines_keep_the_words (wrap_width : Z) (text : str) :
  only_space_ws text ->
  join_space (wrap_lines getTextSize wrap_width text) = normalize_ws text.
Proof.
  intros Honly. unfold normalize_ws.
  rewrite split_whitespace_words by exact Honly.
  rewrite wrap_lines_pack by exact Honly.
  rewrite join_space_concat by apply pack_words_nonempty.
  now rewrite pack_words_concat.
Qed.

End WordWrap.

Lemma wrap_packs_whole_words_witness :
  only_space_ws sample_caption /\
  exists groups : list (list str),
    wrap_lines fixed_pitch (wrap_width_of 0 100) sample_caption
    = map join_space groups /\
    concat groups = words sample_caption /\
    (forall g, In g groups -> (2 <= length g)%nat ->
               fst (fixed_pitch (join_space g)) <= wrap_width_of 0 100) /\
    (forall g w, In g groups -> In w g ->
                 wrap_width_of 0 100 < fst (fixed_pitch w) -> g = [w]).
Proof.
  assert (Honly : only_space_ws sample_caption)
    by (apply only_space_wsb_spec; reflexivity).
  split; [exact Honly|].
  destruct (wrap_packs_whole_words fixed_pitch sample_caption 0 100 Honly)
    as (_ & groups & Hlines & Hconcat & _ & _ & Hfit & Hmono & _).
  destruct (Hmono fixed_pitch_monotone) as (Hoverlong & _).
  exists groups.
  split; [exact Hlines|]. split; [exact Hconcat|].
  split; [exact Hfit|exact Hoverlong].
Defined.

Lemma wrapped_lines_keep_the_words_witness :
  only_space_ws sample_caption /\
  join_space (wrap_lines fixed_pitch 300 sample_caption)
  = normalize_ws sample_caption.
Proof.
  assert (Honly : only_space_ws sample_caption)
    by (apply only_space_wsb_spec; reflexivity).
  split; [exact Honly|].
  exact (wrapped_lines_keep_the_words fixed_pitch 300 sample_caption Honly).
Defined.

(** C7 as stated fails.  The text is split on the space character only:
    two words separated by a tab stay on one line, wider than the wrap
    width, though each of them fits.  And the empty text, which fits on one
    line, gives no line at all. *)
Lemma tab_separated_words_share_a_line :
  let wrap_width := wrap_width_of 0 100 in
  split_whitespace tabbed_words = [repeat 97%N 20; repeat 98%N 20] /\
  wrap_lines fixed_pitch wrap_width tabbed_words = [tabbed_words] /\
  wrap_width < fst (fixed_pitch tabbed_words) /\
  fst (fixed_pitch (repeat 97%N 20)) <= wrap_width /\
  fst (fixed_pitch (repeat 98%N 20)) <= wrap_width /\
  fst (fixed_pitch []) <= wrap_width /\
  wrap_lines fixed_pitch wrap_width [] = [].
Proof.
  intros wrap_width.
  repeat split; try reflexivity; vm_compute; congruence.
Qed.

(** C10 as stated fails: a tab in front of the first word is stripped, a
    tab in front of a later word is kept, so the joined lines are neither
    the whitespace-normalised text nor the pieces between spaces joined by
    single spaces. *)
Lemma tabs_are_neither_kept_nor_normalised :
  let joined := join_space (wrap_lines fixed_pitch 300 tabs_before_words) in
  joined = py "a " ++ TAB :: py "b" /\
  normalize_ws tabs_before_words = py "a b" /\
  join_space (words tabs_before_words) = tabs_before_words /\
  joined <> normalize_ws tabs_before_words /\
  joined <> join_space (words tabs_before_words).
Proof.
  intros joined.
  split; [reflexivity|]. split; [reflexivity|]. split; [reflexivity|].
  split; vm_compute; discriminate.
Qed.

(* ================================================================== *)
(** * The overlap test, read on points *)
(* ================================================================== *)

(** X1.  Two rectangles proper overlap exactly when some pixel lies in both,
    edges included. *)
Theorem overlap_iff_common_point (a b : Rect.t) :
  is_rectangle a -> is_rectangle b ->
  (_overlap a b = true <-> exists x y, contains a x y /\ contains b x y).
Proof.
  unfold is_rectangle, contains. intros Ha Hb.
  rewrite overlap_true_iff. split.
  - intros Hmeet.
    exists (Z.max (Rect.x_min a) (Rect.x_min b)),
           (Z.max (Rect.y_min a) (Rect.y_min b)).
    lia.
  - intros (x & y & Hina & Hinb). lia.
Qed.

Lemma overlap_iff_common_point_witness :
  _overlap (Rect.mk 0 0 20 20) (Rect.mk 5 5 15 15) = true.
Proof.
  apply (overlap_iff_common_point (Rect.mk 0 0 20 20) (Rect.mk 5 5 15 15)).
  - unfold is_rectangle. simpl. lia.
  - unfold is_rectangle. simpl. lia.
  - exists 5, 5. unfold contains. simpl. lia.
Defined.

(* ================================================================== *)
(** * More on label placement *)
(* ================================================================== *)

Section PlacementMore.

Variable cfg : Settings.
Variable getTextSize : str -> Z * Z.

Local Notation "'draw_'" := (_draw_wrapped_text cfg getTextSize).

(** From the position the vertical rule gives, the retry of lines 127-137
    either does not run or computes the same position again. *)
Lemma avoid_overlap_at_rule
    (y_min x_max frame_width line_width line_height total_text_height : Z)
    (label_x : Z) (used_areas : list Rect.t) :
  let label_y_start := vertical_rule y_min line_height total_text_height in
  avoid_overlap y_min x_max frame_width line_width line_height
                total_text_height label_x label_y_start used_areas
  = let label_x' :=
      if overlap_found_in
           (text_area_at label_x label_y_start line_width total_text_height)
           used_areas
      then Z.min (frame_width - line_width - 15) (x_max + 10)
      else label_x in
    (label_x', label_y_start,
     text_area_at label_x' label_y_start line_width total_text_height).
Proof.
  unfold vertical_rule.
  destruct (above_has_room y_min total_text_height);
    [apply avoid_overlap_above|].
  cbv zeta. unfold avoid_overlap, text_area_at.
  destruct (overlap_found_in _ used_areas) eqn:Hfound;
    destruct (y_min + 10 + line_height >? y_min);
    cbn [andb Rect.x_min Rect.y_min Rect.x_max Rect.y_max];
    rewrite ?Hfound; reflexivity.
Qed.

(** X2.  The collision steps never change the vertical position of a label:
    it is drawn where the vertical rule put it, at the abscissa of the
    horizontal rule when its area there is free and at
    [min(frame_width - line_width - 15, x_max + 10)] when it is not. *)
Theorem collision_steps_keep_the_vertical_position
    (frame_height frame_width_actual : Z) (text : str)
    (x_min y_min x_max frame_width : Z) (areas : list Rect.t)
    (plan : DrawPlan) :
  draw_ (frame_height, frame_width_actual) text x_min y_min x_max frame_width
        (Some areas) = Some plan ->
  let line_width := dp_line_width plan in
  let total := dp_total_text_height plan in
  let first_x := horizontal_rule x_min line_width frame_width in
  let first_y := vertical_rule y_min (dp_line_height plan) total in
  dp_label_y_start plan = first_y /\
  dp_label_x plan
  = (if overlap_found_in (text_area_at first_x first_y line_width total) areas
     then Z.min (frame_width - line_width - 15) (x_max + 10)
     else first_x).
Proof.
  intros Hdraw line_width total first_x first_y.
  destruct (draw_wrapped_text_inv _ _ _ _ _ _ _ _ _ _ _ Hdraw)
    as (first_line & more_lines & _ & _ & _ & _ & _ & Hareas & _).
  destruct Hareas as (area & Havoid & _).
  rewrite avoid_overlap_at_rule in Havoid. cbv zeta in Havoid.
  inversion Havoid as [[Hx Hy Ha]]. split; reflexivity.
Qed.

(** With a non-negative text measure and line spacing, every recorded
    footprint is a rectangle proper. *)
Lemma recorded_footprint_is_a_rectangle
    (frame_height frame_width_actual : Z) (text : str)
    (x_min y_min x_max frame_width : Z) (areas : list Rect.t)
    (plan : DrawPlan) (area : Rect.t) :
  metric_nonnegative getTextSize ->
  0 <= TEXT_LINE_SPACING cfg ->
  draw_ (frame_height, frame_width_actual) text x_min y_min x_max frame_width
        (Some areas) = Some plan ->
  dp_text_area plan = Some area ->
  is_rectangle area.
Proof.
  intros Hmetric Hspacing Hdraw Harea.
  destruct (draw_wrapped_text_inv _ _ _ _ _ _ _ _ _ _ _ Hdraw)
    as (first_line & more_lines & _ & _ & Hw & Hh & Htotal & Hareas & _).
  destruct Hareas as (area' & Havoid & Harea' & _).
  rewrite Harea in Harea'. inversion Harea'; subst area'.
  rewrite (avoid_overlap_area _ _ _ _ _ _ _ _ _ _ _ _ Havoid).
  destruct (Hmetric first_line) as [Hw0 Hh0].
  unfold is_rectangle, text_area_at.
  cbn [Rect.x_min Rect.y_min Rect.x_max Rect.y_max].
  rewrite Htotal, Hw, Hh. split; [lia|].
  assert (0 <= Z.of_nat (length (first_line :: more_lines))
               * (snd (getTextSize first_line) + TEXT_LINE_SPACING cfg))
    by (apply Z.mul_nonneg_nonneg; lia).
  lia.
Qed.

Lemma text_at_lines {A B : Type} (g : Z -> A -> B) (l : list A) :
  forall i,
    map fst (map (fun '(i, line) => (line, g i line)) (enumerate_from i l))
    = l.
Proof.
  induction l as [|a l IH]; intros i; simpl; [reflexivity|].
  now rewrite IH.
Qed.

Lemma text_at_in {A B : Type} (g : Z -> A -> B) (l : list A) (a : A) (b : B) :
  forall i,
    In (a, b) (map (fun '(i, line) => (line, g i line)) (enumerate_from i l)) ->
    exists j, b = g j a.
Proof.
  induction l as [|a' l IH]; intros i Hin; simpl in Hin; [destruct Hin|].
  destruct Hin as [Heq|Hin]; [|now apply (IH (i + 1))].
  inversion Heq; subst. now exists i.
Qed.

(** X5.  Every line is written at the label's abscissa, its baseline not above
    [line_height + 5] and, when the frame is high enough for both bounds,
    not below [frame_height - 5]; the lines are written in order. *)
Theorem text_baselines_are_clamped
    (frame_height frame_width_actual : Z) (text : str)
    (x_min y_min x_max frame_width : Z) (used_areas : option (list Rect.t))
    (plan : DrawPlan) :
  draw_ (frame_height, frame_width_actual) text x_min y_min x_max frame_width
        used_areas = Some plan ->
  map fst (dp_text_at plan) = dp_lines plan /\
  forall line x y,
    In (line, (x, y)) (dp_text_at plan) ->
    x = dp_label_x plan /\
    dp_line_height plan + 5 <= y /\
    (dp_line_height plan + 10 <= frame_height -> y <= frame_height - 5).
Proof.
  unfold _draw_wrapped_text.
  destruct (wrap_lines getTextSize (wrap_width_of x_min x_max) text)
    as [|first_line more_lines]; [discriminate|].
  destruct (getTextSize first_line) as [line_width line_height].
  set (lines := first_line :: more_lines).
  set (total := Z.of_nat (length lines) * (line_height + TEXT_LINE_SPACING cfg)).
  set (placed := match used_areas with
                 | Some areas => _
                 | None => _
                 end).
  destruct placed as [[[label_x label_y_start] text_area] used'].
  destruct (label_y_start >? y_min);
    remember (map _ (enumerate_from 0 lines)) as text_at eqn:Htext_at;
    intros [= <-]; cbn [dp_text_at dp_lines dp_label_x dp_line_height];
    rewrite Htext_at.
  all: split;
    [ apply (text_at_lines
               (fun i (_ : str) => (label_x, Z.max (line_height + 5) _)))
    | intros line x y Hin;
      apply (text_at_in
               (fun i (_ : str) => (label_x, Z.max (line_height + 5) _)))
        in Hin;
      destruct Hin as [j Heq]; inversion Heq; subst;
      split; [reflexivity|]; lia ].
Qed.

(** A call draws nothing, and records nothing, exactly when wrapping
    leaves no line. *)
Lemma draw_wrapped_text_none
    (frame_shape : Z * Z) (text : str)
    (x_min y_min x_max frame_width : Z) (used_areas : option (list Rect.t)) :
  draw_ frame_shape text x_min y_min x_max frame_width used_areas = None <->
  wrap_lines getTextSize (wrap_width_of x_min x_max) text = [].
Proof.
  unfold _draw_wrapped_text. destruct frame_shape as [frame_height fwa].
  destruct (wrap_lines getTextSize (wrap_width_of x_min x_max) text)
    as [|first_line more_lines]; [tauto|].
  destruct (getTextSize first_line) as [line_width line_height].
  set (placed := match used_areas with
                 | Some areas => _
                 | None => _
                 end).
  destruct placed as [[[label_x label_y_start] text_area] used'].
  destruct (label_y_start >? y_min); split; discriminate.
Qed.

Lemma wrap_lines_nil_iff (wrap_width : Z) (text : str) :
  only_space_ws text ->
  (wrap_lines getTextSize wrap_width text = [] <-> words text = []).
Proof.
  intros Honly. rewrite (wrap_lines_pack getTextSize wrap_width text Honly).
  pose proof (pack_words_concat getTextSize wrap_width (split_space text) [])
    as Hconcat.
  pose proof (pack_words_nonempty getTextSize wrap_width (split_space text) [])
    as Hne.
  fold (words text) in Hconcat. simpl in Hconcat.
  destruct (pack_words getTextSize wrap_width [] (split_space text))
    as [|g groups].
  - simpl in Hconcat. rewrite <- Hconcat. tauto.
  - inversion Hne as [|? ? Hg _]; subst.
    split; [discriminate|]. intros Hnone. rewrite Hnone in Hconcat.
    destruct g; [contradiction|discriminate].
Qed.

(** X6.  For a text whose only whitespace is the space character, nothing is
    drawn and no footprint is recorded exactly when the text has no word:
    when it is empty or made of spaces. *)
Theorem blank_label_draws_nothing
    (frame_shape : Z * Z) (text : str)
    (x_min y_min x_max frame_width : Z) (used_areas : option (list Rect.t)) :
  only_space_ws text ->
  (draw_ frame_shape text x_min y_min x_max frame_width used_areas = None
   <-> words text = []).
Proof.
  intros Honly. rewrite draw_wrapped_text_none.
  now apply wrap_lines_nil_iff.
Qed.

End PlacementMore.

(* ================================================================== *)
(** * More on word wrap *)
(* ================================================================== *)

Section WrapMore.

Variable getTextSize : str -> Z * Z.
Variable wrap_width : Z.

Local Notation "'step_'" := (wrap_step getTextSize wrap_width).

(** One more line at most for a word, none for an empty piece. *)
Lemma wrap_fold_count (ws : list str) :
  forall (lines : list str) (current_line : str) (k : nat),
    Forall (fun l => l <> []) lines ->
    (length lines + (if truthy current_line then 1 else 0) <= k)%nat ->
    let '(lines', current_line') :=
      fold_left step_ ws (lines, current_line) in
    Forall (fun l => l <> []) lines' /\
    (length lines' + (if truthy current_line' then 1 else 0)
     <= k + length (filter truthy ws))%nat.
Proof.
  induction ws as [|w ws IH]; intros lines current_line k Hne Hk.
  - simpl. split; [exact Hne|lia].
  - cbn [fold_left filter]. unfold wrap_step at 2.
    set (test_line := strip (current_line ++ SPACE :: w)).
    destruct (getTextSize test_line) as [text_width text_height].
    destruct ((text_width >? wrap_width) && truthy current_line) eqn:Hwrap.
    + apply andb_true_iff in Hwrap. destruct Hwrap as [_ Hcur].
      rewrite Hcur in Hk.
      specialize (IH (lines ++ [current_line]) w
                     (k + (if truthy w then 1 else 0))%nat).
      destruct (fold_left step_ ws (lines ++ [current_line], w))
        as [lines' current_line'].
      destruct IH as [IHne IHk].
      * apply Forall_app. split; [exact Hne|].
        constructor; [|constructor]. now apply truthy_true.
      * rewrite length_app. simpl. lia.
      * split; [exact IHne|]. destruct (truthy w); simpl in *; lia.
    + assert (Htest : ((if truthy test_line then 1 else 0)
                       <= (if truthy current_line then 1 else 0)
                          + (if truthy w then 1 else 0))%nat).
      { destruct (truthy test_line) eqn:Htruthy; [|lia].
        subst test_line. destruct current_line; destruct w; simpl; try lia.
        vm_compute in Htruthy. discriminate. }
      specialize (IH lines test_line (k + (if truthy w then 1 else 0))%nat Hne).
      destruct (fold_left step_ ws (lines, test_line))
        as [lines' current_line'].
      destruct IH as [IHne IHk]; [lia|].
      split; [exact IHne|]. destruct (truthy w); simpl in *; lia.
Qed.

(** X7.  Whatever the text and the text measure, no wrapped line is empty and
    there are no more lines than non-empty pieces between spaces. *)
Theorem wrapped_lines_are_never_empty (text : str) :
  Forall (fun line => line <> []) (wrap_lines getTextSize wrap_width text) /\
  (length (wrap_lines getTextSize wrap_width text) <= length (words text))%nat.
Proof.
  unfold wrap_lines, words.
  pose proof (wrap_fold_count (split_space text) [] [] 0%nat
                              (Forall_nil _) (Nat.le_refl _)) as Hcount.
  set (acc := fold_left step_ (split_space text) ([], [])) in *.
  change (fold_left step_ (split_space text) ([], [])) with acc in Hcount.
  destruct acc as [lines current_line].
  destruct Hcount as [Hne Hk]. simpl in Hk.
  destruct (truthy current_line) eqn:Hcur.
  - split.
    + apply Forall_app. split; [exact Hne|].
      constructor; [|constructor]. now apply truthy_true.
    + rewrite length_app. simpl. lia.
  - split; [exact Hne|lia].
Qed.

(** X8.  For a text whose only whitespace is the space character, every line
    is left as it is by [strip]: it neither starts nor ends with a space. *)
Theorem wrapped_lines_are_trimmed (text : str) :
  only_space_ws text ->
  Forall (fun line => strip line = line)
         (wrap_lines getTextSize wrap_width text).
Proof.
  intros Honly. rewrite (wrap_lines_pack getTextSize wrap_width text Honly).
  pose proof (pack_words_concat getTextSize wrap_width (split_space text) [])
    as Hconcat.
  pose proof (pack_words_nonempty getTextSize wrap_width (split_space text) [])
    as Hne.
  pose proof (words_proper text Honly) as Hproper.
  fold (words text) in Hconcat. simpl in Hconcat. rewrite <- Hconcat in Hproper.
  apply Forall_forall. intros line Hline.
  apply in_map_iff in Hline. destruct Hline as (g & <- & Hg).
  rewrite Forall_forall in Hne, Hproper.
  destruct (join_space_trimmed g (Hne g Hg)) as [Hstart Hend].
  - apply Forall_forall. intros w Hw. apply Hproper.
    apply in_concat. exists g. now split.
  - now apply strip_trimmed.
Qed.

End WrapMore.

(* ================================================================== *)
(** * Labels of one frame: [draw_bounding_boxes] *)
(* ================================================================== *)

Section FrameLabels.

Variable cfg : Settings.
Variable getTextSize : str -> Z * Z.
Variable F : Type.
Context `{FloatOps F}.
Variables frame_height frame_width : Z.

Local Notation "'frame_shape'" := (frame_height, frame_width).

(** What the loop does for one object, given the footprints so far. *)
Local Notation "'label_of' used obj" :=
  (_draw_wrapped_text cfg getTextSize frame_shape (object_label obj)
     (Rect.x_min (object_rect frame_shape obj))
     (Rect.y_min (object_rect frame_shape obj))
     (Rect.x_max (object_rect frame_shape obj))
     frame_width (Some used))
  (at level 10, used at level 9, obj at level 9).

Lemma footprints_of_app (a b : list (Rect.t * option DrawPlan)) :
  footprints_of (a ++ b) = footprints_of a ++ footprints_of b.
Proof. unfold footprints_of. now rewrite flat_map_app. Qed.

Lemma label_records_its_footprint (used : list Rect.t) (obj : Obj.t F) :
  match label_of used obj with
  | Some plan => dp_used_areas plan
                 = Some (used ++ footprints_of
                                   [(object_rect frame_shape obj, Some plan)])
  | None => True
  end.
Proof.
  destruct (label_of used obj) as [plan|] eqn:Hdraw; [|exact I].
  destruct (draw_wrapped_text_inv _ _ _ _ _ _ _ _ _ _ _ Hdraw)
    as (first_line & more_lines & _ & _ & _ & _ & _ & Hareas & _).
  destruct Hareas as (area & _ & Harea & Hused).
  unfold footprints_of. simpl. rewrite Harea, Hused. simpl. reflexivity.
Qed.

Lemma draw_bounding_boxes_from (objects : list (Obj.t F)) :
  forall (drawn0 : list (Rect.t * option DrawPlan)) (used0 : list Rect.t),
  exists drawn,
    fold_left
      (fun '(drawn, used_areas) obj =>
         let x_min := to_int (fmul (Obj.x_min obj) (of_int frame_width)) in
         let y_min := to_int (fmul (Obj.y_min obj) (of_int frame_height)) in
         let x_max := to_int (fmul (Obj.x_max obj) (of_int frame_width)) in
         let y_max := to_int (fmul (Obj.y_max obj) (of_int frame_height)) in
         let label := match Obj.label obj with Some l => l | None => [] end in
         let box := Rect.mk x_min y_min x_max y_max in
         match _draw_wrapped_text cfg getTextSize frame_shape label
                                  x_min y_min x_max frame_width
                                  (Some used_areas) with
         | Some plan =>
             (drawn ++ [(box, Some plan)],
              match dp_used_areas plan with
              | Some areas => areas
              | None => used_areas
              end)
         | None => (drawn ++ [(box, None)], used_areas)
         end)
      objects (drawn0, used0)
    = (drawn0 ++ drawn, used0 ++ footprints_of drawn) /\
    map fst drawn = map (object_rect frame_shape) objects /\
    forall i obj,
      nth_error objects i = Some obj ->
      nth_error drawn i
      = Some (object_rect frame_shape obj,
              label_of (used0 ++ footprints_of (firstn i drawn)) obj).
Proof.
  induction objects as [|obj objects IH]; intros drawn0 used0.
  - exists []. simpl. rewrite !app_nil_r.
    split; [reflexivity|]. split; [reflexivity|].
    intros [|i] obj Hnth; discriminate.
  - cbn [fold_left].
    pose proof (label_records_its_footprint used0 obj) as Hrecord.
    change (_draw_wrapped_text cfg getTextSize frame_shape
              match Obj.label obj with Some l => l | None => [] end
              (to_int (fmul (Obj.x_min obj) (of_int frame_width)))
              (to_int (fmul (Obj.y_min obj) (of_int frame_height)))
              (to_int (fmul (Obj.x_max obj) (of_int frame_width)))
              frame_width (Some used0))
      with (label_of used0 obj).
    change (Rect.mk (to_int (fmul (Obj.x_min obj) (of_int frame_width)))
                    (to_int (fmul (Obj.y_min obj) (of_int frame_height)))
                    (to_int (fmul (Obj.x_max obj) (of_int frame_width)))
                    (to_int (fmul (Obj.y_max obj) (of_int frame_height))))
      with (object_rect frame_shape obj).
    set (label := label_of used0 obj) in *.
    set (box := object_rect frame_shape obj) in *.
    assert (Hstep :
              match label with
              | Some plan =>
                  (drawn0 ++ [(box, Some plan)],
                   match dp_used_areas plan with
                   | Some areas => areas
                   | None => used0
                   end)
              | None => (drawn0 ++ [(box, None)], used0)
              end
              = (drawn0 ++ [(box, label)],
                 used0 ++ footprints_of [(box, label)])).
    { revert Hrecord. generalize label. intros [plan|] Hrecord.
      - rewrite Hrecord. reflexivity.
      - unfold footprints_of. simpl. now rewrite app_nil_r. }
    rewrite Hstep.
    destruct (IH (drawn0 ++ [(box, label)])
                 (used0 ++ footprints_of [(box, label)]))
      as (drawn & Hfold & Hboxes & Hnth).
    exists ((box, label) :: drawn).
    split; [|split].
    + refine (eq_trans Hfold _). f_equal.
      * now rewrite <- app_assoc.
      * rewrite <- app_assoc. f_equal. symmetry.
        exact (footprints_of_app [(box, label)] drawn).
    + simpl. now rewrite Hboxes.
    + intros [|i] obj' Hobj'.
      * inversion Hobj'; subst obj'. simpl. rewrite app_nil_r. reflexivity.
      * simpl in Hobj'. simpl nth_error. rewrite (Hnth i obj' Hobj').
        rewrite <- app_assoc, <- footprints_of_app. reflexivity.
Qed.

Lemma draw_bounding_boxes_spec (objects : list (Obj.t F)) :
  exists drawn,
    draw_bounding_boxes cfg getTextSize frame_shape objects
    = (drawn, footprints_of drawn) /\
    map fst drawn = map (object_rect frame_shape) objects /\
    forall i obj,
      nth_error objects i = Some obj ->
      nth_error drawn i
      = Some (object_rect frame_shape obj,
              label_of (footprints_of (firstn i drawn)) obj).
Proof.
  destruct (draw_bounding_boxes_from objects [] [])
    as (drawn & Hfold & Hboxes & Hnth).
  exists drawn. split; [exact Hfold|]. split; [exact Hboxes|exact Hnth].
Qed.

(** X3.  The labels of a frame are placed one after the other: there is one
    pixel box per object, in order; each label is placed by
    [_draw_wrapped_text] against the footprints of the labels drawn before
    it, and of them only; the footprints left at the end are those of the
    labels drawn. *)
Theorem draw_bounding_boxes_accumulates_footprints (objects : list (Obj.t F)) :
  let drawn := fst (draw_bounding_boxes cfg getTextSize frame_shape objects) in
  let used_areas :=
    snd (draw_bounding_boxes cfg getTextSize frame_shape objects) in
  map fst drawn = map (object_rect frame_shape) objects /\
  used_areas = footprints_of drawn /\
  forall i obj,
    nth_error objects i = Some obj ->
    nth_error drawn i
    = Some (object_rect frame_shape obj,
            label_of (footprints_of (firstn i drawn)) obj).
Proof.
  destruct (draw_bounding_boxes_spec objects)
    as (drawn & Hdraw & Hboxes & Hnth).
  rewrite Hdraw. cbn [fst snd].
  split; [exact Hboxes|]. split; [reflexivity|exact Hnth].
Qed.

(** X4.  With a non-negative text measure and line spacing, every footprint a
    frame leaves is a rectangle proper. *)
Theorem frame_footprints_are_rectangles (objects : list (Obj.t F)) :
  metric_nonnegative getTextSize ->
  0 <= TEXT_LINE_SPACING cfg ->
  Forall is_rectangle
         (snd (draw_bounding_boxes cfg getTextSize frame_shape objects)).
Proof.
  intros Hmetric Hspacing.
  destruct (draw_bounding_boxes_spec objects)
    as (drawn & Hdraw & Hboxes & Hnth).
  rewrite Hdraw. cbn [snd]. apply Forall_forall. intros area Harea.
  unfold footprints_of in Harea. apply in_flat_map in Harea.
  destruct Harea as ([box [plan|]] & Hin & Harea); [|destruct Harea].
  cbn [snd] in Harea.
  destruct (dp_text_area plan) as [area'|] eqn:Htext; [|destruct Harea].
  destruct Harea as [<-|[]].
  apply In_nth_error in Hin. destruct Hin as [i Hi].
  assert (Hlen : (i < length objects)%nat).
  { rewrite <- (length_map (object_rect frame_shape)), <- Hboxes, length_map.
    apply nth_error_Some. congruence. }
  destruct (nth_error objects i) as [obj|] eqn:Hobj;
    [|apply nth_error_None in Hobj; lia].
  rewrite (Hnth i obj Hobj) in Hi.
  assert (Hplan : label_of (footprints_of (firstn i drawn)) obj = Some plan)
    by congruence.
  exact (recorded_footprint_is_a_rectangle
           cfg getTextSize _ _ _ _ _ _ _ _ plan area'
           Hmetric Hspacing Hplan Htext).
Qed.

End FrameLabels.

(* ================================================================== *)
(** * Banners *)
(* ================================================================== *)

Section BannerFacts.

Variable dcfg : DisplaySettings.
Variable getTextSize : str -> Z * Z.

(** X9.  The origin of a banner's text is never closer than the padding to the
    left edge, nor than text height plus padding to the top; its
    background never leaves the canvas on the left or the top nor passes
    its width or height; when text and padding fit in the canvas the
    background is the text box grown by the padding on all four sides,
    whole; and a position that leaves room for text and padding is used
    as it is. *)
Theorem banner_is_kept_on_the_canvas
    (frame_height frame_width : Z) (text : str) (x0 y0 : Z) (has_bg : bool) :
  let padding := TEXT_PADDING dcfg in
  let text_width := fst (getTextSize text) in
  let text_height := snd (getTextSize text) in
  let banner :=
    _draw_text_with_bg dcfg getTextSize (frame_height, frame_width) text
                       (x0, y0) has_bg in
  let x := fst (bn_origin banner) in
  let y := snd (bn_origin banner) in
  (padding <= x /\ text_height + padding <= y) /\
  (forall bg, bn_background banner = Some bg ->
              0 <= Rect.x_min bg /\ 0 <= Rect.y_min bg /\
              Rect.x_max bg <= frame_width /\ Rect.y_max bg <= frame_height) /\
  (text_width + 2 * padding <= frame_width ->
   text_height + 2 * padding <= frame_height ->
   x + text_width + padding <= frame_width /\ y + padding <= frame_height /\
   forall bg, bn_background banner = Some bg ->
              bg = Rect.mk (x - padding) (y - text_height - padding)
                           (x + text_width + padding) (y + padding)) /\
  (padding <= x0 <= frame_width - text_width - padding ->
   text_height + padding <= y0 <= frame_height - padding ->
   bn_origin banner = (x0, y0)).
Proof.
  intros padding text_width text_height banner x y.
  subst banner x y text_width text_height. unfold _draw_text_with_bg.
  destruct (getTextSize text) as [tw th]. fold padding.
  cbn [bn_origin bn_background fst snd].
  split; [lia|]. split; [|split].
  - intros bg Hbg. destruct has_bg; [|discriminate].
    inversion Hbg; subst bg. cbn [Rect.x_min Rect.y_min Rect.x_max Rect.y_max].
    lia.
  - intros Hw Hh. split; [lia|]. split; [lia|].
    intros bg Hbg. destruct has_bg; [|discriminate].
    inversion Hbg; subst bg. f_equal; lia.
  - intros Hx Hy. f_equal; lia.
Qed.

End BannerFacts.

(* ================================================================== *)
(** * More on the pipeline *)
(* ================================================================== *)

Lemma for_each_map {E A B : Type} (f : A -> M E B) (g : A -> B) (xs : list A) :
  (forall x, f x = ret (g x)) -> for_each f xs = ret (map g xs).
Proof.
  intros Hf. induction xs as [|x xs IH]; [reflexivity|].
  simpl. rewrite Hf, IH. reflexivity.
Qed.

Section PipelineMore.

Variable cfg : Settings.
Variable getTextSize : str -> Z * Z.
Variable F : Type.
Context `{FloatOps F}.
Variables Frame Image : Type.
Variable shape : Frame -> Z * Z.
Variable fromarray : Frame -> Image.
Variable size : Image -> Z * Z.
Variable crop : Image -> Z * Z * Z * Z -> outcome Image.
Variable model_detect : Image -> str -> Z -> outcome (option (list (Obj.t F))).
Variable model_caption : Image -> outcome (option str).

Local Notation "'detect_objects_'" := (detect_objects cfg model_detect).
Local Notation "'caption_image_'" := (caption_image model_caption).
Local Notation "'label_object_'" :=
  (label_object shape size crop model_caption).
Local Notation "'process_frame_'" :=
  (_process_frame cfg getTextSize shape fromarray size crop
                  model_detect model_caption).
Local Notation "'run_'" :=
  (run cfg getTextSize shape fromarray size crop model_detect model_caption).
Local Notation "'detect_raises_exceptions_only'" :=
  (forall image prompt n e,
      model_detect image prompt n = Raises e -> exists msg, e = PyException msg).
Local Notation "'caption_raises_exceptions_only'" :=
  (forall image e,
      model_caption image = Raises e -> exists msg, e = PyException msg).
Local Notation "'objects_of' result" :=
  (match result with Some objects => objects | None => [] end)
  (at level 10).
Local Notation "'crop_of_' frame pil_image" :=
  (fun obj cropped_image =>
     crop pil_image (pixel_box shape frame obj) = Returns cropped_image)
  (at level 10, frame at level 9, pil_image at level 9).
Local Notation "'crop_accepts_ordered_boxes_'" :=
  (crop_accepts_ordered_boxes crop).
Local Notation "'detections_in_order_'" :=
  (detections_in_order cfg shape fromarray model_detect).

(** Each wrapper calls the model exactly once; a result without the key
    gives the empty list, or the empty string; an [Exception] gives the
    same; anything else that is raised goes through. *)
Lemma detector_wrappers_call_the_model_once (image : Image) (prompt : str) :
  detect_objects_ image prompt
  = (match model_detect image prompt (MAX_OBJECTS cfg) with
     | Returns (Some objects) => Returns objects
     | Returns None => Returns []
     | Raises (PyException _) => Returns []
     | Raises (PyBaseException msg) => Raises (PyBaseException msg)
     end,
     [Detect image prompt (MAX_OBJECTS cfg)]) /\
  caption_image_ image
  = (match model_caption image with
     | Returns (Some caption) => Returns caption
     | Returns None => Returns []
     | Raises (PyException _) => Returns []
     | Raises (PyBaseException msg) => Raises (PyBaseException msg)
     end,
     [Caption image]).
Proof.
  unfold detect_objects, caption_image, try_except, bind, ret. split.
  - destruct (model_detect image prompt (MAX_OBJECTS cfg))
      as [[objects|]|[msg|msg]]; reflexivity.
  - destruct (model_caption image) as [[caption|]|[msg|msg]]; reflexivity.
Qed.

Lemma detect_objects_of_result (image : Image) (prompt : str)
    (result : option (list (Obj.t F))) :
  model_detect image prompt (MAX_OBJECTS cfg) = Returns result ->
  detect_objects_ image prompt
  = (Returns (objects_of result), [Detect image prompt (MAX_OBJECTS cfg)]).
Proof.
  intros Hret. unfold detect_objects, try_except, bind, ret.
  rewrite Hret. reflexivity.
Qed.

(** X11.  Any mode other than ["caption"] labels like ["detect"]: on a frame
    that runs inference the only call into the model is the detection,
    every detection gets the prompt read for that frame as its label, and
    the labelled list replaces the stored one and is the one rendered. *)
Theorem detect_mode_labels_with_the_prompt
    (self : VideoProcessor F) (inp : FrameInput F Frame)
    (result : option (list (Obj.t F))) :
  String.eqb (mode self) "caption" = false ->
  runs_inference cfg self = true ->
  model_detect (fromarray (fi_frame inp)) (fi_prompt inp) (MAX_OBJECTS cfg)
  = Returns result ->
  exists self' rendered,
    process_frame_ self inp
    = (Returns (self', rendered),
       [Detect (fromarray (fi_frame inp)) (fi_prompt inp) (MAX_OBJECTS cfg)]) /\
    r_objects rendered
    = map (fun obj => Obj.set_label obj (fi_prompt inp)) (objects_of result) /\
    latest_objects self' = r_objects rendered.
Proof.
  intros Hmode Hgate Hdetect. unfold _process_frame. rewrite Hgate.
  rewrite (detect_objects_of_result _ _ _ Hdetect).
  unfold bind. cbv beta iota.
  rewrite (for_each_map
             (label_object_ (mode self) (fi_frame inp)
                            (fromarray (fi_frame inp)) (fi_prompt inp))
             (fun obj => Obj.set_label obj (fi_prompt inp))).
  2:{ intros obj. unfold label_object. rewrite Hmode. reflexivity. }
  simpl. eexists. eexists. split; [reflexivity|]. split; [reflexivity|].
  unfold _calculate_fps. simpl.
  destruct (frame_count self + 1 >=? FPS_POLL_RATE cfg); reflexivity.
Qed.

(** In caption mode, one detection labelled, its crop taken. *)
Lemma label_object_caption
    (frame : Frame) (pil_image : Image) (current_prompt : str) (obj : Obj.t F)
    (cropped_image : Image) :
  caption_raises_exceptions_only ->
  crop pil_image (pixel_box shape frame obj) = Returns cropped_image ->
  exists label,
    label_object_ "caption"%string frame pil_image current_prompt obj
    = (Returns (Obj.set_label obj label),
       if positive_size (size cropped_image)
       then [Caption cropped_image] else []).
Proof.
  intros Honly Hcrop. unfold label_object.
  simpl String.eqb. cbv iota. rewrite Hcrop, bind_returned.
  destruct (positive_size (size cropped_image)).
  - unfold caption_image, try_except, bind, ret.
    destruct (model_caption cropped_image) as [[caption|]|e] eqn:Hcap.
    + now exists caption.
    + now exists [].
    + destruct (Honly _ _ Hcap) as [msg ->]. now exists [].
  - now exists current_prompt.
Qed.

(** In caption mode, a detection whose crop is refused. *)
Lemma label_object_crop_raises
    (frame : Frame) (pil_image : Image) (current_prompt : str) (obj : Obj.t F)
    (e : raised) :
  crop pil_image (pixel_box shape frame obj) = Raises e ->
  label_object_ "caption"%string frame pil_image current_prompt obj
  = (Raises e, []).
Proof.
  intros Hcrop. unfold label_object. simpl String.eqb. cbv iota.
  rewrite Hcrop. reflexivity.
Qed.

Lemma for_each_label_caption
    (frame : Frame) (pil_image : Image) (current_prompt : str)
    (objects : list (Obj.t F)) (crops : list Image) :
  caption_raises_exceptions_only ->
  Forall2 (crop_of_ frame pil_image) objects crops ->
  exists labelled,
    for_each (label_object_ "caption"%string frame pil_image current_prompt)
             objects
    = (Returns labelled,
       map (fun cropped_image => Caption cropped_image)
           (filter (fun cropped_image => positive_size (size cropped_image))
                   crops)) /\
    map object_box labelled = map object_box objects /\
    Forall (fun obj => Obj.label obj <> None) labelled.
Proof.
  intros Honly Hcrops.
  induction Hcrops as [|obj cropped objects crops Hcrop _ IH].
  - exists []. repeat split; constructor.
  - destruct IH as (labelled & Heach & Hboxes & Hlabels).
    destruct (label_object_caption frame pil_image current_prompt obj
                                   cropped Honly Hcrop) as (label & Hone).
    exists (Obj.set_label obj label :: labelled).
    split; [|split].
    + cbn [for_each filter]. rewrite Hone. unfold bind at 1.
      rewrite Heach. unfold bind, ret.
      destruct (positive_size (size cropped));
        simpl; now rewrite app_nil_r.
    + simpl. now rewrite Hboxes.
    + constructor; [discriminate|exact Hlabels].
Qed.

(** The loop over the detections stops at the first crop that is
    refused. *)
Lemma for_each_label_crop_raises
    (frame : Frame) (pil_image : Image) (current_prompt : str)
    (before after : list (Obj.t F)) (obj : Obj.t F) (crops : list Image)
    (e : raised) :
  caption_raises_exceptions_only ->
  Forall2 (crop_of_ frame pil_image) before crops ->
  crop pil_image (pixel_box shape frame obj) = Raises e ->
  for_each (label_object_ "caption"%string frame pil_image current_prompt)
           (before ++ obj :: after)
  = (Raises e,
     map (fun cropped_image => Caption cropped_image)
         (filter (fun cropped_image => positive_size (size cropped_image))
                 crops)).
Proof.
  intros Honly Hcrops Hraise.
  induction Hcrops as [|obj0 cropped before crops Hcrop _ IH].
  - cbn [app for_each filter map].
    rewrite (label_object_crop_raises _ _ _ _ _ Hraise). reflexivity.
  - destruct (label_object_caption frame pil_image current_prompt obj0
                                   cropped Honly Hcrop) as (label & Hone).
    cbn [app for_each filter]. rewrite Hone. unfold bind at 1.
    rewrite IH. unfold bind.
    destruct (positive_size (size cropped)); reflexivity.
Qed.

(** X12.  In caption mode, on a frame that runs inference, with a model whose
    captioning raises [Exception]s only and detections whose crops are
    all returned: the detection is followed by one caption call for each
    crop of positive width and height, in the order of the detections, and
    by no other; the rendered list has the boxes of the detections, in
    order, each with a label. *)
Theorem caption_mode_calls_once_per_positive_crop
    (self : VideoProcessor F) (inp : FrameInput F Frame)
    (result : option (list (Obj.t F))) (crops : list Image) :
  mode self = "caption"%string ->
  runs_inference cfg self = true ->
  caption_raises_exceptions_only ->
  model_detect (fromarray (fi_frame inp)) (fi_prompt inp) (MAX_OBJECTS cfg)
  = Returns result ->
  let pil_image := fromarray (fi_frame inp) in
  Forall2 (crop_of_ (fi_frame inp) pil_image) (objects_of result) crops ->
  exists self' rendered,
    process_frame_ self inp
    = (Returns (self', rendered),
       Detect pil_image (fi_prompt inp) (MAX_OBJECTS cfg)
       :: map (fun cropped_image => Caption cropped_image)
              (filter (fun cropped_image => positive_size (size cropped_image))
                      crops)) /\
    map object_box (r_objects rendered)
    = map object_box (objects_of result) /\
    Forall (fun obj => Obj.label obj <> None) (r_objects rendered).
Proof.
  intros Hmode Hgate Honly Hdetect pil_image Hcrops.
  unfold _process_frame. rewrite Hgate, Hmode.
  rewrite (detect_objects_of_result _ _ _ Hdetect).
  destruct (for_each_label_caption (fi_frame inp) pil_image (fi_prompt inp)
                                   (objects_of result) crops Honly Hcrops)
    as (labelled & Heach & Hboxes & Hlabels).
  fold pil_image. unfold bind. cbv beta iota. rewrite Heach. unfold ret.
  eexists. eexists. split; [|split].
  - simpl. rewrite app_nil_r. reflexivity.
  - exact Hboxes.
  - exact Hlabels.
Qed.

(** X21.  [crop] is called outside every [try]: in caption mode, when it
    refuses the box of a detection (Pillow raises [ValueError] on a box
    whose right edge is less than its left, or lower less than upper),
    the exception leaves [_process_frame] after the caption calls made
    for the detections before it; the frame is not drawn, the stored
    detections are not replaced, and [run] ends there. *)
Theorem refused_crop_ends_the_loop
    (self : VideoProcessor F) (inp : FrameInput F Frame)
    (rest : list (FrameInput F Frame))
    (result : option (list (Obj.t F)))
    (before after : list (Obj.t F)) (obj : Obj.t F) (crops : list Image)
    (e : raised) :
  mode self = "caption"%string ->
  runs_inference cfg self = true ->
  caption_raises_exceptions_only ->
  model_detect (fromarray (fi_frame inp)) (fi_prompt inp) (MAX_OBJECTS cfg)
  = Returns result ->
  objects_of result = before ++ obj :: after ->
  let pil_image := fromarray (fi_frame inp) in
  Forall2 (crop_of_ (fi_frame inp) pil_image) before crops ->
  crop pil_image (pixel_box shape (fi_frame inp) obj) = Raises e ->
  let calls :=
    Detect pil_image (fi_prompt inp) (MAX_OBJECTS cfg)
    :: map (fun cropped_image => Caption cropped_image)
           (filter (fun cropped_image => positive_size (size cropped_image))
                   crops) in
  process_frame_ self inp = (Raises e, calls) /\
  run_ self (inp :: rest) = ([], Crashed e calls).
Proof.
  intros Hmode Hgate Honly Hdetect Hobjects pil_image Hcrops Hraise calls.
  assert (Hprocess : process_frame_ self inp = (Raises e, calls)).
  { unfold _process_frame. rewrite Hgate, Hmode.
    rewrite (detect_objects_of_result _ _ _ Hdetect), Hobjects.
    fold pil_image. unfold bind at 2. cbv beta iota.
    rewrite (for_each_label_crop_raises (fi_frame inp) pil_image
               (fi_prompt inp) before after obj crops e Honly Hcrops Hraise).
    reflexivity. }
  split; [exact Hprocess|]. simpl. rewrite Hprocess. reflexivity.
Qed.

(** X13.  What [except Exception] does not catch ends the loop: when the model
    raises it during detection, the frame is not rendered, the processor
    is left as it was, and [run] stops there. *)
Theorem base_exception_ends_the_loop
    (self : VideoProcessor F) (inp : FrameInput F Frame)
    (rest : list (FrameInput F Frame)) (msg : str) :
  runs_inference cfg self = true ->
  model_detect (fromarray (fi_frame inp)) (fi_prompt inp) (MAX_OBJECTS cfg)
  = Raises (PyBaseException msg) ->
  let calls :=
    [Detect (fromarray (fi_frame inp)) (fi_prompt inp) (MAX_OBJECTS cfg)] in
  process_frame_ self inp = (Raises (PyBaseException msg), calls) /\
  run_ self (inp :: rest) = ([], Crashed (PyBaseException msg) calls).
Proof.
  intros Hgate Hraise calls.
  assert (Hprocess : process_frame_ self inp
                     = (Raises (PyBaseException msg), calls)).
  { unfold _process_frame. rewrite Hgate.
    unfold detect_objects, try_except. unfold bind at 3.
    rewrite Hraise. reflexivity. }
  split; [exact Hprocess|]. simpl. rewrite Hprocess. reflexivity.
Qed.



(** X16.  [_calculate_fps] brings any non-negative counter below the poll rate
    and never touches the mode or the stored detections; when the poll
    rate is reached but no time has passed, the window is restarted and
    the stored FPS value is kept. *)
Theorem calculate_fps_keeps_the_counter_in_range
    (self : VideoProcessor F) (now : F) :
  1 <= FPS_POLL_RATE cfg ->
  0 <= frame_count self ->
  let self' := _calculate_fps cfg self now in
  0 <= frame_count self' < FPS_POLL_RATE cfg /\
  mode self' = mode self /\
  latest_objects self' = latest_objects self /\
  (FPS_POLL_RATE cfg <= frame_count self + 1 ->
   fgt (fsub now (start_time self)) (of_int 0) = false ->
   fps self' = fps self /\ frame_count self' = 0 /\ start_time self' = now).
Proof.
  intros Hp Hc self'. subst self'. unfold _calculate_fps.
  destruct (Z.geb_spec (frame_count self + 1) (FPS_POLL_RATE cfg));
    cbn [frame_count mode latest_objects fps start_time].
  - split; [lia|]. split; [reflexivity|]. split; [reflexivity|].
    intros _ Helapsed. rewrite Helapsed. now split.
  - split; [lia|]. split; [reflexivity|]. split; [reflexivity|]. lia.
Qed.

(** X17.  When [FPS_POLL_RATE] is not above [FRAME_SKIP], the interval that
    counts is the poll rate: inference runs exactly on the frames whose
    index is a multiple of [FPS_POLL_RATE]. *)
Theorem poll_rate_caps_the_skip_interval
    (self_mode : string) (now : F) (source : list (FrameInput F Frame))
    (i : nat) (report : Report F Image) :
  0 < FPS_POLL_RATE cfg <= FRAME_SKIP cfg ->
  nth_error (fst (run_ (VideoProcessor_init self_mode now) source)) i
  = Some report ->
  (existsb is_Detect (rp_calls report) = true
   <-> Z.of_nat i mod FPS_POLL_RATE cfg = 0).
Proof.
  intros Hrates Hnth.
  destruct (@run_gate cfg getTextSize F _ Frame Image shape fromarray size crop
              model_detect model_caption source ltac:(lia)
              (VideoProcessor_init self_mode now) i report)
    as [Hran Hskipped]; [simpl; lia | exact Hnth |].
  simpl frame_count in Hran, Hskipped. rewrite Z.add_0_l in Hran, Hskipped.
  pose proof (Z.mod_pos_bound (Z.of_nat i) (FPS_POLL_RATE cfg) ltac:(lia))
    as Hbound.
  rewrite (Z.mod_small (Z.of_nat i mod FPS_POLL_RATE cfg) (FRAME_SKIP cfg))
    in Hran, Hskipped by lia.
  split; [|exact Hran].
  intros Hdid.
  destruct (Z.eq_dec (Z.of_nat i mod FPS_POLL_RATE cfg) 0) as [Hz|Hnz];
    [exact Hz|].
  destruct (Hskipped Hnz) as [Hcalls _]. rewrite Hcalls in Hdid. discriminate.
Qed.

End PipelineMore.

(* ================================================================== *)
(** * The prompt listener *)
(* ================================================================== *)

Section ListenerFacts.

Variable lower : str -> str.

Local Notation "'is_quit' line" := (lower line = py "quit") (at level 10).

(** X19.  The listener writes the non-empty lines it reads before the first
    line that is [quit] in any letter case, in order, and nothing else:
    what follows that line is never read, and an empty line changes
    nothing. *)
Theorem listener_writes_until_quit (before after : list str) (line : str) :
  Forall (fun l => ~ is_quit l) before ->
  (prompt_input_thread lower before = filter truthy before) /\
  (is_quit line ->
   prompt_input_thread lower (before ++ line :: after)
   = filter truthy before).
Proof.
  intros Hbefore. induction Hbefore as [|l before Hl Hbefore IH].
  - split; [reflexivity|]. intros Hquit. simpl.
    destruct (list_eq_dec N.eq_dec (lower line) _); [reflexivity|].
    contradiction.
  - destruct IH as [IHall IHquit]. simpl.
    destruct (list_eq_dec N.eq_dec (lower l) _); [contradiction|].
    split.
    + rewrite IHall. reflexivity.
    + intros Hquit. rewrite (IHquit Hquit). reflexivity.
Qed.

(** X20.  The prompt is never empty: [main] falls back to the default prompt
    when none is given, and the listener never writes an empty line. *)
Theorem prompt_is_never_empty
    (dcfg : DisplaySettings) (args_prompt : option str) (inputs : list str) :
  DEFAULT_OBJECT_PROMPT dcfg <> [] ->
  initial_prompt dcfg args_prompt <> [] /\
  Forall (fun p => p <> []) (prompt_input_thread lower inputs) /\
  forall n,
    current_prompt_after (initial_prompt dcfg args_prompt)
                         (firstn n (prompt_input_thread lower inputs))
    <> [].
Proof.
  intros Hdefault.
  assert (Hinit : initial_prompt dcfg args_prompt <> []).
  { unfold initial_prompt. destruct args_prompt as [p|]; [|exact Hdefault].
    destruct (truthy p) eqn:Hp; [now apply truthy_true|exact Hdefault]. }
  assert (Hwrites : Forall (fun p => p <> [])
                           (prompt_input_thread lower inputs)).
  { induction inputs as [|l inputs IH]; simpl; [constructor|].
    destruct (list_eq_dec N.eq_dec (lower l) _); [constructor|].
    destruct (truthy l) eqn:Hl; [|exact IH].
    constructor; [now apply truthy_true|exact IH]. }
  split; [exact Hinit|]. split; [exact Hwrites|].
  intros n. unfold current_prompt_after.
  assert (Hfirst : Forall (fun p => p <> [])
                          (firstn n (prompt_input_thread lower inputs))).
  { apply Forall_forall. intros p Hp. rewrite Forall_forall in Hwrites.
    apply Hwrites.
    rewrite <- (firstn_skipn n (prompt_input_thread lower inputs)).
    apply in_or_app. now left. }
  destruct (firstn n (prompt_input_thread lower inputs)) as [|w ws] eqn:Hw;
    [exact Hinit|].
  rewrite Forall_forall in Hfirst. apply Hfirst.
  rewrite <- Hw. destruct (exists_last (l := w :: ws) ltac:(discriminate))
    as (ws' & w' & Heq).
  rewrite Hw, Heq, last_last. apply in_or_app. right. now left.
Qed.

End ListenerFacts.

(* ================================================================== *)
(** * The properties above on concrete inputs *)
(* ================================================================== *)

Lemma fixed_pitch_nonnegative : metric_nonnegative fixed_pitch.
Proof. intros s. unfold fixed_pitch. cbn [fst snd]. lia. Qed.

Lemma collision_steps_keep_the_vertical_position_witness :
  let areas := [Rect.mk 0 0 200 100] in
  exists plan,
    _draw_wrapped_text settings fixed_pitch frame_720p (py "test")
                       50 10 150 1280 (Some areas) = Some plan /\
    dp_label_y_start plan = vertical_rule 10 16 21 /\
    dp_label_x plan = Z.min (1280 - 48 - 15) (150 + 10).
Proof.
  intros areas.
  destruct (_draw_wrapped_text settings fixed_pitch frame_720p (py "test")
                               50 10 150 1280 (Some areas))
    as [plan|] eqn:Hdraw; [|vm_compute in Hdraw; discriminate].
  exists plan. split; [reflexivity|].
  pose proof (collision_steps_keep_the_vertical_position
                settings fixed_pitch 720 1280 (py "test")
                50 10 150 1280 areas plan Hdraw) as Hthm.
  vm_compute in Hdraw. inversion Hdraw as [Hplan]. subst plan.
  exact Hthm.
Defined.

Lemma text_baselines_are_clamped_witness :
  exists plan,
    _draw_wrapped_text settings fixed_pitch frame_720p sample_caption
                       256 216 768 1280 (Some []) = Some plan /\
    map fst (dp_text_at plan) = dp_lines plan /\
    forall line x y,
      In (line, (x, y)) (dp_text_at plan) ->
      x = dp_label_x plan /\ dp_line_height plan + 5 <= y /\
      (dp_line_height plan + 10 <= 720 -> y <= 720 - 5).
Proof.
  destruct (_draw_wrapped_text settings fixed_pitch frame_720p sample_caption
                               256 216 768 1280 (Some []))
    as [plan|] eqn:Hdraw; [|vm_compute in Hdraw; discriminate].
  exists plan. split; [reflexivity|].
  exact (text_baselines_are_clamped
           settings fixed_pitch 720 1280 sample_caption 256 216 768 1280
           (Some []) plan Hdraw).
Defined.

Lemma blank_label_draws_nothing_witness :
  only_space_ws (py "   ") /\
  _draw_wrapped_text settings fixed_pitch frame_720p (py "   ")
                     256 216 768 1280 (Some []) = None.
Proof.
  assert (Honly : only_space_ws (py "   "))
    by (apply only_space_wsb_spec; reflexivity).
  split; [exact Honly|].
  apply (blank_label_draws_nothing settings fixed_pitch frame_720p (py "   ")
                                   256 216 768 1280 (Some []) Honly).
  reflexivity.
Defined.

Lemma wrapped_lines_are_trimmed_witness :
  only_space_ws sample_caption /\
  Forall (fun line => strip line = line)
         (wrap_lines fixed_pitch 300 sample_caption).
Proof.
  assert (Honly : only_space_ws sample_caption)
    by (apply only_space_wsb_spec; reflexivity).
  split; [exact Honly|].
  exact (wrapped_lines_are_trimmed fixed_pitch 300 sample_caption Honly).
Defined.

Lemma draw_bounding_boxes_accumulates_footprints_witness :
  let drawn :=
    fst (draw_bounding_boxes settings fixed_pitch (720, 1280) two_people) in
  nth_error two_people 1 = Some a_neighbour /\
  nth_error drawn 1
  = Some (object_rect (720, 1280) a_neighbour,
          _draw_wrapped_text settings fixed_pitch (720, 1280)
            (object_label a_neighbour)
            (Rect.x_min (object_rect (720, 1280) a_neighbour))
            (Rect.y_min (object_rect (720, 1280) a_neighbour))
            (Rect.x_max (object_rect (720, 1280) a_neighbour))
            1280 (Some (footprints_of (firstn 1 drawn)))).
Proof.
  intros drawn.
  destruct (@draw_bounding_boxes_accumulates_footprints
              settings fixed_pitch Q _ 720 1280 two_people)
    as (_ & _ & Hnth).
  split; [reflexivity|].
  exact (Hnth 1%nat a_neighbour eq_refl).
Defined.

Lemma frame_footprints_are_rectangles_witness :
  Forall is_rectangle
         (snd (draw_bounding_boxes settings fixed_pitch (720, 1280) two_people)).
Proof.
  apply (@frame_footprints_are_rectangles
           settings fixed_pitch Q _ 720 1280 two_people).
  - exact fixed_pitch_nonnegative.
  - simpl. lia.
Defined.

Lemma banner_is_kept_on_the_canvas_witness :
  let banner :=
    draw_info_text display_settings fixed_pitch (720, 1280) (py "FPS: 30.00") in
  bn_origin banner = (10, 720 - 40) /\
  exists bg,
    bn_background banner = Some bg /\
    bg = Rect.mk (10 - 8) (680 - 16 - 8) (10 + 120 + 8) (680 + 8).
Proof.
  intros banner.
  destruct (banner_is_kept_on_the_canvas
              display_settings fixed_pitch 720 1280 (py "FPS: 30.00")
              10 (720 - 40) true) as (_ & _ & Hfits & Hposition).
  split.
  - apply Hposition; simpl; lia.
  - destruct Hfits as (_ & _ & Hbg); [simpl; lia | simpl; lia |].
    eexists. split; [reflexivity|]. apply Hbg. reflexivity.
Defined.

Lemma detect_mode_labels_with_the_prompt_witness :
  exists self' rendered,
    _process_frame settings fixed_pitch dims_shape dims_fromarray dims_size
                   dims_crop (model_finds [a_person]) caption_fails
                   (VideoProcessor_init "detect" 0%Q) (frame_at 1)
    = (Returns (self', rendered), [Detect (1280, 720) (py "a person") 1]) /\
    r_objects rendered
    = map (fun obj => Obj.set_label obj (py "a person")) [a_person] /\
    latest_objects self' = r_objects rendered.
Proof.
  exact (@detect_mode_labels_with_the_prompt
           settings fixed_pitch Q _ _ _ dims_shape dims_fromarray dims_size
           dims_crop (model_finds [a_person]) caption_fails
           (VideoProcessor_init "detect" 0%Q) (frame_at 1) (Some [a_person])
           eq_refl eq_refl eq_refl).
Defined.

Lemma caption_mode_calls_once_per_positive_crop_witness :
  exists self' rendered,
    _process_frame settings fixed_pitch dims_shape dims_fromarray dims_size
                   dims_crop (model_finds [a_cyclist; a_pole])
                   (model_says (py "a person wearing a blue shirt"))
                   (VideoProcessor_init "caption" 0%Q) (frame_at 1)
    = (Returns (self', rendered),
       [Detect (1280, 720) (py "a person") 1; Caption (640, 360)]) /\
    map object_box (r_objects rendered)
    = map object_box [a_cyclist; a_pole] /\
    Forall (fun obj => Obj.label obj <> None) (r_objects rendered).
Proof.
  assert (Honly : forall (image : Z * Z) (e : raised),
             model_says (py "a person wearing a blue shirt") image = Raises e ->
             exists msg, e = PyException msg)
    by (intros image e Hraise; discriminate).
  assert (Hcrops :
            Forall2 (fun obj cropped_image =>
                       dims_crop (1280, 720)
                                 (pixel_box dims_shape frame_720p obj)
                       = Returns cropped_image)
                    [a_cyclist; a_pole] [(640, 360); (0, 360)])
    by (repeat constructor).
  exact (@caption_mode_calls_once_per_positive_crop
           settings fixed_pitch Q _ _ _ dims_shape dims_fromarray dims_size
           dims_crop (model_finds [a_cyclist; a_pole])
           (model_says (py "a person wearing a blue shirt"))
           (VideoProcessor_init "caption" 0%Q) (frame_at 1)
           (Some [a_cyclist; a_pole]) [(640, 360); (0, 360)]
           eq_refl eq_refl Honly eq_refl Hcrops).
Defined.

Lemma refused_crop_ends_the_loop_witness :
  run settings fixed_pitch dims_shape dims_fromarray dims_size dims_crop
      (model_finds [a_cyclist; a_mirrored_box])
      (model_says (py "a person wearing a blue shirt"))
      (VideoProcessor_init "caption" 0%Q) (frame_at 1 :: frames_from 1 5)
  = ([], Crashed (PyException (py "Coordinate 'right' is less than 'left'"))
                 [Detect (1280, 720) (py "a person") 1; Caption (640, 360)]).
Proof.
  assert (Honly : forall (image : Z * Z) (e : raised),
             model_says (py "a person wearing a blue shirt") image = Raises e ->
             exists msg, e = PyException msg)
    by (intros image e Hraise; discriminate).
  assert (Hcrops :
            Forall2 (fun obj cropped_image =>
                       dims_crop (1280, 720)
                                 (pixel_box dims_shape frame_720p obj)
                       = Returns cropped_image)
                    [a_cyclist] [(640, 360)])
    by (repeat constructor).
  destruct (@refused_crop_ends_the_loop
              settings fixed_pitch Q _ _ _ dims_shape dims_fromarray dims_size
              dims_crop (model_finds [a_cyclist; a_mirrored_box])
              (model_says (py "a person wearing a blue shirt"))
              (VideoProcessor_init "caption" 0%Q) (frame_at 1)
              (frames_from 1 5) (Some [a_cyclist; a_mirrored_box])
              [a_cyclist] [] a_mirrored_box [(640, 360)]
              (PyException (py "Coordinate 'right' is less than 'left'"))
              eq_refl eq_refl Honly eq_refl eq_refl Hcrops eq_refl)
    as [_ Hrun].
  exact Hrun.
Defined.

Lemma base_exception_ends_the_loop_witness :
  run settings fixed_pitch dims_shape dims_fromarray dims_size dims_crop
      detect_interrupted caption_fails
      (VideoProcessor_init "detect" 0%Q) (frame_at 1 :: frames_from 1 5)
  = ([], Crashed (PyBaseException (py "KeyboardInterrupt"))
                 [Detect (1280, 720) (py "a person") 1]).
Proof.
  destruct (@base_exception_ends_the_loop
              settings fixed_pitch Q _ _ _ dims_shape dims_fromarray dims_size
              dims_crop detect_interrupted caption_fails
              (VideoProcessor_init "detect" 0%Q) (frame_at 1)
              (frames_from 1 5) (py "KeyboardInterrupt") eq_refl eq_refl)
    as [_ Hrun].
  exact Hrun.
Defined.



Lemma calculate_fps_keeps_the_counter_in_range_witness :
  let self' := _calculate_fps settings stalled_processor 5%Q in
  0 <= frame_count self' < 10 /\
  fps self' = 0%Q /\ frame_count self' = 0 /\ start_time self' = 5%Q.
Proof.
  intros self'.
  destruct (@calculate_fps_keeps_the_counter_in_range
              settings Q _ stalled_processor 5%Q)
    as (Hrange & _ & _ & Hstalled); [simpl; lia | simpl; lia |].
  split; [exact Hrange|].
  apply Hstalled; [simpl; lia | reflexivity].
Defined.

Lemma poll_rate_caps_the_skip_interval_witness :
  let reports :=
    fst (run settings_skip_30 fixed_pitch dims_shape dims_fromarray dims_size
             dims_crop (model_finds [a_person]) (model_says (py "a person"))
             (VideoProcessor_init "detect" 0%Q) (frames_from 0 12)) in
  exists report,
    nth_error reports 10 = Some report /\
    existsb is_Detect (rp_calls report) = true.
Proof.
  intros reports.
  destruct (nth_error reports 10) as [report|] eqn:E;
    [|vm_compute in E; discriminate].
  exists report. split; [reflexivity|].
  pose proof (@poll_rate_caps_the_skip_interval
                settings_skip_30 fixed_pitch Q _ _ _ dims_shape dims_fromarray
                dims_size dims_crop (model_finds [a_person])
                (model_says (py "a person")) "detect"%string 0%Q
                (frames_from 0 12) 10%nat report) as Hgate.
  assert (Hrates : 0 < FPS_POLL_RATE settings_skip_30
                   <= FRAME_SKIP settings_skip_30) by (simpl; lia).
  specialize (Hgate Hrates). specialize (Hgate E).
  apply Hgate. reflexivity.
Defined.

Lemma listener_writes_until_quit_witness :
  prompt_input_thread ascii_lower
    ([py "a cat"; []; py "a dog"] ++ py "QuIt" :: [py "a bird"])
  = filter truthy [py "a cat"; []; py "a dog"].
Proof.
  destruct (listener_writes_until_quit
              ascii_lower [py "a cat"; []; py "a dog"] [py "a bird"]
              (py "QuIt")) as [_ Hquit].
  - repeat constructor; vm_compute; discriminate.
  - apply Hquit. reflexivity.
Defined.

Lemma prompt_is_never_empty_witness :
  initial_prompt display_settings (Some []) <> [] /\
  Forall (fun p => p <> [])
         (prompt_input_thread ascii_lower [py "a cat"; []; py "a dog"]).
Proof.
  destruct (prompt_is_never_empty
              ascii_lower display_settings (Some [])
              [py "a cat"; []; py "a dog"]) as (Hinit & Hwrites & _).
  - discriminate.
  - split; [exact Hinit|exact Hwrites].
Defined.
